(** * DENA overflights: [_DENA/resource/helpers.py]

    A shallow embedding of the helper functions of the module
    ([get_deployment], [query_tracks], [query_adsb], [get_logger],
    [get_omni_sources])
    and the properties the specification states about them.

    Conventions of the embedding.
    - A Python exception is a value of [exn]; a call that may raise
      returns a [result].
    - Python [int] is [Z]; a Python number that may be a float is an exact
      rational [Q] (every finite binary64 value is a rational, and on the
      inputs the assertions of [get_omni_sources] accept every intermediate
      value is an integer of magnitude at most 505, so binary64 arithmetic
      is exact there).
    - Objects that the code mutates and that the caller can still see
      (the [mask] frame) live in an explicit [heap]. *)

From stdpp Require Import gmap strings list.
From Stdlib Require Import ZArith QArith Qround String Ascii List Lia Sorted.
Import ListNotations.

Open Scope Z_scope.

(** ** Python primitives *)

(** The exceptions the module can raise or let through. *)
Inductive exn : Type :=
  | AssertionError (msg : string)
  | IndexError
  | ValueError
  | TypeError
  | AttributeError
  | DatabaseError
  | ReferenceError.

Inductive result (A : Type) : Type :=
  | Ok (a : A)
  | Raise (e : exn).

Arguments Ok {A} a.
Arguments Raise {A} e.

(** [result] is a monad: an exception ends the computation. *)
#[global] Instance result_ret : MRet result := fun A a => Ok a.
#[global] Instance result_bind : MBind result := fun A B k r =>
  match r with
  | Ok a => k a
  | Raise e => Raise e
  end.

(** [assert cond, msg] *)
Definition py_assert (cond : bool) (msg : string) : result unit :=
  if cond then Ok tt else Raise (AssertionError msg).

(** The character of a decimal digit [0 <= d <= 9]. *)
Definition digit_char (d : Z) : ascii := ascii_of_nat (48 + Z.to_nat d).

(** Decimal digits of a non-negative integer, most significant first.
    [fuel] bounds the number of digits produced. *)
Fixpoint digits_fuel (fuel : nat) (n : Z) (acc : string) : string :=
  match fuel with
  | O => acc
  | S fuel' =>
      let acc' := String (digit_char (n mod 10)) acc in
      if n / 10 =? 0 then acc' else digits_fuel fuel' (n / 10) acc'
  end.

(** [str(n)] for [n >= 0]: a number has no more decimal than binary digits. *)
Definition str_of_nonneg (n : Z) : string :=
  digits_fuel (S (Z.to_nat (Z.log2 n))) n EmptyString.

(** [str(z)] for a Python [int]. *)
Definition str_of_int (z : Z) : string :=
  if z <? 0 then String "-" (str_of_nonneg (- z)) else str_of_nonneg z.

Fixpoint zeros (n : nat) : string :=
  match n with
  | O => EmptyString
  | S n' => String "0" (zeros n')
  end.

(** [format(z, '0w')], the format specification of [f"{i:04}"] and
    [f"{i:03}"]: the sign (only ["-"]) comes first and zeros are put between
    it and the digits until the whole text is [w] characters wide. *)
Definition format_zero_width (w : nat) (z : Z) : string :=
  let body := str_of_nonneg (Z.abs z) in
  let sign := if z <? 0 then "-"%string else EmptyString in
  (sign ++ zeros (w - String.length sign - String.length body) ++ body)%string.

(** [s.zfill(w)]: a leading sign stays in front of the padding. *)
Definition zfill (w : nat) (s : string) : string :=
  if (w <=? String.length s)%nat then s
  else
    match s with
    | String c rest =>
        if (Ascii.eqb c "+" || Ascii.eqb c "-")%bool
        then String c (zeros (w - String.length s) ++ rest)%string
        else (zeros (w - String.length s) ++ s)%string
    | EmptyString => zeros w
    end.

(** [range(start, stop, step)] for a positive [step]. *)
Definition py_range (start stop step : Z) : list Z :=
  map (fun i => start + Z.of_nat i * step)
      (seq 0 (Z.to_nat ((stop - start + step - 1) / step))).

(** [x % y] on numbers, for a positive [y]: the remainder has the sign of
    [y]. *)
Definition py_mod (x y : Q) : Q := (x - y * inject_Z (Qfloor (x / y)))%Q.

(** [int(x)] on a number: truncation toward zero. *)
Definition py_int (x : Q) : Z :=
  if Qle_bool 0 x then Qfloor x else Qceiling x.

(** ** [get_omni_sources] *)

Definition bounds_msg : string :=
  "Bounds must be ordered and between [-30, 50].".
Definition upper_msg : string :=
  "Invalid upper limit. Value must be divisible by 0.5.".
Definition lower_msg : string :=
  "Invalid lower limit. Value must be divisible by 0.5.".

(** [f"{ACTIVE_SPACE_DIR}\\data\\tuning"]: the separators are the literal
    backslash of the source text. [ACTIVE_SPACE_DIR] is a constant of the
    package [nps_active_space]; it is a parameter here. *)
Definition omni_source_dir (ACTIVE_SPACE_DIR : string) : string :=
  (ACTIVE_SPACE_DIR ++ "\data\tuning")%string.

(** The body of the loop: the path appended for the loop variable [i]. *)
Definition omni_source (ACTIVE_SPACE_DIR : string) (i : Z) : string :=
  if i <? 0
  then (omni_source_dir ACTIVE_SPACE_DIR ++ "\O_" ++ format_zero_width 4 i ++ ".src")%string
  else (omni_source_dir ACTIVE_SPACE_DIR ++ "\O_+" ++ format_zero_width 3 i ++ ".src")%string.

Definition get_omni_sources (ACTIVE_SPACE_DIR : string) (lower upper : Q)
  : result (list string) :=
  py_assert
    (Qle_bool (-30) upper && Qle_bool upper 50
     && (Qle_bool (-30) lower && Qle_bool lower 50)
     && Qle_bool lower upper)%bool
    bounds_msg ;;
  py_assert (Qeq_bool (py_mod upper (1 # 2)) 0) upper_msg ;;
  py_assert (Qeq_bool (py_mod lower (1 # 2)) 0) lower_msg ;;
  Ok (map (omni_source ACTIVE_SPACE_DIR)
          (py_range (py_int (lower * 10)) (py_int (upper * 10 + 5)) 5)).

(** The naming convention in the words of the specification:
    [O_{sign}{3-digit-tenths}.src], the sign always written, the magnitude
    as hundreds, tens and units. *)
Definition tenths_name (t : Z) : string :=
  String (if t <? 0 then "-"%char else "+"%char)
    (String (digit_char (Z.abs t / 100))
       (String (digit_char (Z.abs t / 10 mod 10))
          (String (digit_char (Z.abs t mod 10)) EmptyString))).

Definition omni_path (ACTIVE_SPACE_DIR : string) (t : Z) : string :=
  (ACTIVE_SPACE_DIR ++ "\data\tuning" ++ "\" ++ "O_" ++ tenths_name t ++ ".src")%string.

(** The gain bounds the function accepts: within [[-30, 50]], ordered, and
    each a multiple of 0.5. *)
Definition half_step (x : Q) : Prop := exists k : Z, (x == k # 2)%Q.

Definition valid_bounds (lower upper : Q) : Prop :=
  (-30 <= lower)%Q /\ (lower <= upper)%Q /\ (upper <= 50)%Q
  /\ half_step lower /\ half_step upper.

(** ** [get_deployment] *)

(** A cell of the [code] column as [pd.read_csv] leaves it: an integer
    where the text of the file was read as a number (["009"] is read as
    [9] in a column of numbers), the text itself otherwise. *)
Inductive cell : Type :=
  | CInt (z : Z)
  | CStr (s : string).

(** One row of the metadata table. [num] is the type of the numeric cells
    (latitude, longitude, heights); the function only passes them on. *)
Record meta_row (num : Type) : Type := MetaRow {
  row_unit : string;
  row_code : cell;
  row_year : Z;
  row_lat : num;
  row_long : num;
  row_elevation : num;
  row_microphone_height : num
}.

Arguments MetaRow {num}.
Arguments row_unit {num}.
Arguments row_code {num}.
Arguments row_year {num}.
Arguments row_lat {num}.
Arguments row_long {num}.
Arguments row_elevation {num}.
Arguments row_microphone_height {num}.

(** [Microphone(lat=..., lon=..., z=..., name=...)] of
    [nps_active_space.utils]: the four values the constructor is given. *)
Record Microphone (num : Type) : Type := MkMicrophone {
  mic_lat : num;
  mic_lon : num;
  mic_z : num;
  mic_name : string
}.

Arguments MkMicrophone {num}.
Arguments mic_lat {num}.
Arguments mic_lon {num}.
Arguments mic_z {num}.
Arguments mic_name {num}.

(** [.astype('str')] on a cell. *)
Definition cell_str (c : cell) : string :=
  match c with
  | CInt z => str_of_int z
  | CStr s => s
  end.

(** Line 54, on one row: where the text of the code is at most three
    characters long the cell becomes that text, zero-filled to width 3. *)
Definition normalize_code (c : cell) : cell :=
  if (String.length (cell_str c) <=? 3)%nat
  then CStr (zfill 3 (cell_str c))
  else c.

Definition normalize_row {num : Type} (r : meta_row num) : meta_row num :=
  MetaRow (row_unit r) (normalize_code (row_code r)) (row_year r)
          (row_lat r) (row_long r) (row_elevation r) (row_microphone_height r).

(** [metadata['code'] == site], on one cell: a number never equals a
    string. *)
Definition cell_eq_str (c : cell) (site : string) : bool :=
  match c with
  | CInt _ => false
  | CStr s => String.eqb s site
  end.

(** The selection of line 56, on one row of the normalized table. *)
Definition row_matches {num : Type} (unit site : string) (year : Z)
    (r : meta_row num) : bool :=
  String.eqb (row_unit r) unit && cell_eq_str (row_code r) site
  && (row_year r =? year).

(** [series.iat[0]] *)
Definition iat0 {A : Type} (l : list A) : result A :=
  match l with
  | [] => Raise IndexError
  | x :: _ => Ok x
  end.

(** [get_deployment]. [metadata] is the table [pd.read_csv] returns for
    [filename]; faults of reading the file and the [print] of line 50 are
    left out. *)
Definition get_deployment {num : Type} (unit site : string) (year : Z)
    (metadata : list (meta_row num)) (elevation : bool)
  : result (Microphone num) :=
  let metadata := map normalize_row metadata in
  let site_meta := List.filter (row_matches unit site year) metadata in
  lat ← iat0 (map row_lat site_meta);
  lon ← iat0 (map row_long site_meta);
  z ← (if elevation
       then iat0 (map row_elevation site_meta)
       else iat0 (map row_microphone_height site_meta));
  Ok (MkMicrophone lat lon z (unit ++ site ++ str_of_int year)%string).

(** ** Frames, geometry and what the module reads from outside *)

(** A coordinate reference system: an EPSG code where it has one. *)
Inductive CRS : Type :=
  | EPSG (code : Z)
  | CustomCRS (definition : string).

(** [crs.to_epsg()] *)
Definition to_epsg (c : CRS) : option Z :=
  match c with
  | EPSG code => Some code
  | CustomCRS _ => None
  end.

Definition crs_eqb (c d : CRS) : bool :=
  match c, d with
  | EPSG m, EPSG n => m =? n
  | CustomCRS s, CustomCRS t => String.eqb s t
  | _, _ => false
  end.

(** A cell of an attribute column. *)
Inductive value : Type :=
  | VInt (z : Z)
  | VStr (s : string).

(** A [GeoDataFrame] such as the mask: its reference system (or [None]),
    its attribute columns in order, and its geometry column. *)
Record GeoDataFrame (geom : Type) : Type := MkFrame {
  gdf_crs : option CRS;
  gdf_columns : list (string * list value);
  gdf_geometry : list geom
}.

Arguments MkFrame {geom}.
Arguments gdf_crs {geom}.
Arguments gdf_columns {geom}.
Arguments gdf_geometry {geom}.

(** A row of an ADS-B frame: its [TIME], its geometry and the other
    columns. *)
Record adsb_row (geom : Type) : Type := MkAdsbRow {
  TIME : Z;
  adsb_geometry : geom;
  adsb_rest : list (string * value)
}.

Arguments MkAdsbRow {geom}.
Arguments TIME {geom}.
Arguments adsb_geometry {geom}.
Arguments adsb_rest {geom}.

(** The two result variants of [query_adsb], by the class that read the
    files. *)
Inductive reader : Type :=
  | EarlyAdsb
  | Adsb.

Record Tracks (geom : Type) : Type := MkTracks {
  tracks_reader : reader;
  tracks_crs : option CRS;
  tracks_rows : list (adsb_row geom)
}.

Arguments MkTracks {geom}.
Arguments tracks_reader {geom}.
Arguments tracks_crs {geom}.
Arguments tracks_rows {geom}.

(** The tables of the flights database. Timestamps count microseconds. *)
Record flight : Type := MkFlight {
  f_id : Z;
  f_flight_id : string
}.

Record flight_point (geom : Type) : Type := MkFlightPoint {
  fp_flight_id : Z;
  fp_altitude_ft : Q;
  fp_ak_datetime : Z;
  fp_geom : geom
}.

Arguments MkFlightPoint {geom}.
Arguments fp_flight_id {geom}.
Arguments fp_altitude_ft {geom}.
Arguments fp_ak_datetime {geom}.
Arguments fp_geom {geom}.

Record Engine (geom : Type) : Type := MkEngine {
  flights : list flight;
  flight_points : list (flight_point geom)
}.

Arguments MkEngine {geom}.
Arguments flights {geom}.
Arguments flight_points {geom}.

(** A row of the result of [query_tracks]. *)
Record track_row (geom : Type) : Type := MkTrackRow {
  flight_id : string;
  altitude_m : Q;
  ak_datetime : Z;
  geometry : geom;
  ak_hourtime : Z
}.

Arguments MkTrackRow {geom}.
Arguments flight_id {geom}.
Arguments altitude_m {geom}.
Arguments ak_datetime {geom}.
Arguments geometry {geom}.
Arguments ak_hourtime {geom}.

(** What the module takes from the libraries it imports (shapely, pyproj,
    geopandas, pandas, PostGIS, [os], [glob], [nps_active_space.utils]) and
    from the file system. None of it is code of this repository; every
    property below holds for every instance. *)
Class Externals : Type := {
  (** a shapely geometry *)
  geom : Type;
  (** [g.is_empty] *)
  is_empty : geom -> bool;
  (** reprojection of one geometry from a reference system to another *)
  transform : CRS -> CRS -> geom -> geom;
  (** [g.buffer(distance)] *)
  buffer : Z -> geom -> geom;
  (** [frame.dissolve(by='dissolve_field').squeeze()['geometry'].wkt] *)
  dissolve_squeeze_wkt : GeoDataFrame geom -> result string;
  (** [gpd.clip] on one row: the geometry of the row cut to the mask
      geometries, [None] where the row is not selected *)
  clip_geom : list geom -> geom -> option geom;
  (** [ST_Intersects(g, ST_GeomFromText(wkt, 4326))] *)
  ST_Intersects : geom -> string -> bool;
  (** the day a PostgreSQL date literal denotes *)
  pg_date : string -> option Z;
  (** the timestamp pandas compares a [datetime] column with when given a
      string *)
  pd_timestamp : string -> option Z;
  (** [os.path.join] and [glob.glob] *)
  os_path_join : string -> string -> string;
  glob_glob : string -> list string;
  (** [EarlyAdsb(files)] and [Adsb(files)]: reference system and rows of
      the frame built from the files *)
  read_EarlyAdsb : list string -> result (option CRS * list (adsb_row geom));
  read_Adsb : list string -> result (option CRS * list (adsb_row geom))
}.

(** ** The heap and the monad of the two queries *)

(** The caller's [mask] is a Python object the function is handed a
    reference to. Frames live in a heap, a name holds a location, and a
    computation threads the heap and may raise. *)
Definition loc : Type := positive.

Definition M {E : Externals} (A : Type) : Type :=
  gmap loc (GeoDataFrame geom) -> gmap loc (GeoDataFrame geom) * result A.

#[global] Instance M_ret {E : Externals} : MRet M := fun A a h => (h, Ok a).
#[global] Instance M_bind {E : Externals} : MBind M := fun A B k m h =>
  match m h with
  | (h', Ok a) => k a h'
  | (h', Raise e) => (h', Raise e)
  end.

(** A computation that does not touch the heap. *)
Definition lift {E : Externals} {A : Type} (r : result A) : M A :=
  fun h => (h, r).

(** The object a name refers to. A Python name always refers to a live
    object; a location outside the heap, which no call with a live mask
    reaches, is reported as [ReferenceError]. *)
Definition load {E : Externals} (l : loc) : M (GeoDataFrame geom) :=
  fun h =>
    match h !! l with
    | Some f => (h, Ok f)
    | None => (h, Raise ReferenceError)
    end.

(** In-place update of the object at [l]. *)
Definition store {E : Externals} (l : loc) (f : GeoDataFrame geom) : M unit :=
  fun h => (<[l := f]> h, Ok tt).

(** A new object. *)
Definition alloc {E : Externals} (f : GeoDataFrame geom) : M loc :=
  fun h => let l := fresh (dom h) in (<[l := f]> h, Ok l).

(** [frame.crs.to_epsg()]: [None] has no method [to_epsg]. *)
Definition frame_epsg {geom : Type} (f : GeoDataFrame geom) : result (option Z) :=
  match gdf_crs f with
  | None => Raise AttributeError
  | Some c => Ok (to_epsg c)
  end.

(** [frame.to_crs(epsg=code)]: a new frame; a frame without a reference
    system cannot be transformed. *)
Definition to_crs {E : Externals} (code : Z) (f : GeoDataFrame geom)
  : result (GeoDataFrame geom) :=
  match gdf_crs f with
  | None => Raise ValueError
  | Some c =>
      Ok (MkFrame (Some (EPSG code)) (gdf_columns f)
                  (map (transform c (EPSG code)) (gdf_geometry f)))
  end.

(** [frame[name] = v] on the columns: an existing column is overwritten in
    its place, a new one is added at the end. *)
Fixpoint set_column (name : string) (vs : list value)
    (cols : list (string * list value)) : list (string * list value) :=
  match cols with
  | [] => [(name, vs)]
  | (n, old) :: rest =>
      if String.eqb n name then (n, vs) :: rest
      else (n, old) :: set_column name vs rest
  end.

(** [frame['dissolve_field'] = 1] *)
Definition set_dissolve_field {geom : Type} (f : GeoDataFrame geom)
  : GeoDataFrame geom :=
  MkFrame (gdf_crs f)
    (set_column "dissolve_field" (repeat (VInt 1) (List.length (gdf_geometry f)))
                (gdf_columns f))
    (gdf_geometry f).

(** [frame.geometry = series] *)
Definition set_geometry {geom : Type} (gs : list geom) (f : GeoDataFrame geom)
  : GeoDataFrame geom :=
  MkFrame (gdf_crs f) (gdf_columns f) gs.

(** Truth value of [mask_buffer_distance : Optional[int]]: [None] and [0]
    are false. *)
Definition truthy (d : option Z) : bool :=
  match d with
  | None => false
  | Some z => negb (z =? 0)
  end.

Definition distance (d : option Z) : Z :=
  match d with
  | None => 0
  | Some z => z
  end.

(** ** [query_tracks] *)

(** The conditions the function collects in [wheres]. *)
Inductive where_clause : Type :=
  | DateBetween (start_date end_date : string)
  | MaskIntersects (mask_wkt : string).

(** The text of a condition, as the two f-strings of the source build it. *)
Definition where_text (w : where_clause) : string :=
  match w with
  | DateBetween start_date end_date =>
      ("fp.ak_datetime::date BETWEEN '" ++ start_date ++ "' AND '" ++ end_date ++ "'")%string
  | MaskIntersects mask_wkt =>
      ("ST_Intersects(geom, ST_GeomFromText('" ++ mask_wkt ++ "', 4326))")%string
  end.

(** The text of the query sent to the database. *)
Definition query_text (wheres : list where_clause) : string :=
  ("
        SELECT
            f.flight_id as flight_id,
            fp.altitude_ft * 0.3048 as altitude_m,
            fp.ak_datetime,
            fp.geom, 
            date_trunc('hour', fp.ak_datetime) as ak_hourtime
        FROM flight_points as fp
        JOIN flights f ON f.id = fp.flight_id
        WHERE " ++ String.concat " AND " (map where_text wheres) ++ "
        ORDER BY fp.ak_datetime asc
        ")%string.

Definition usec_per_hour : Z := 3600000000.
Definition usec_per_day : Z := 24 * usec_per_hour.

(** [ts::date], as a day number, and [date_trunc('hour', ts)]. *)
Definition date_of (ts : Z) : Z := ts / usec_per_day.
Definition date_trunc_hour (ts : Z) : Z := ts / usec_per_hour * usec_per_hour.

(** What a condition selects. [x BETWEEN a AND b] is [a <= x AND x <= b];
    a text that is no date literal makes the query fail. *)
Definition where_holds {E : Externals} (w : where_clause)
  : result (flight_point geom -> bool) :=
  match w with
  | DateBetween start_date end_date =>
      match pg_date start_date, pg_date end_date with
      | Some d1, Some d2 =>
          Ok (fun fp => (d1 <=? date_of (fp_ak_datetime fp))
                        && (date_of (fp_ak_datetime fp) <=? d2))
      | _, _ => Raise DatabaseError
      end
  | MaskIntersects mask_wkt => Ok (fun fp => ST_Intersects (fp_geom fp) mask_wkt)
  end.

(** The conjunction [' AND '.join(wheres)]. *)
Fixpoint where_all {E : Externals} (wheres : list where_clause)
  : result (flight_point geom -> bool) :=
  match wheres with
  | [] => Ok (fun _ => true)
  | w :: rest =>
      p ← where_holds w;
      q ← where_all rest;
      Ok (fun fp => p fp && q fp)
  end.

(** [ORDER BY ak_datetime asc] *)
Fixpoint insert_by_time {geom : Type} (r : track_row geom)
    (l : list (track_row geom)) : list (track_row geom) :=
  match l with
  | [] => [r]
  | x :: rest =>
      if ak_datetime r <=? ak_datetime x then r :: l
      else x :: insert_by_time r rest
  end.

Definition order_by_time {geom : Type} (l : list (track_row geom))
  : list (track_row geom) :=
  fold_right insert_by_time [] l.

(** The row the [SELECT] list builds from a point and its flight. *)
Definition select_row {geom : Type} (fp : flight_point geom) (f : flight)
  : track_row geom :=
  MkTrackRow (f_flight_id f) (fp_altitude_ft fp * (3048 # 10000))%Q
             (fp_ak_datetime fp) (fp_geom fp)
             (date_trunc_hour (fp_ak_datetime fp)).

(** [gpd.GeoDataFrame.from_postgis(query, engine, ...)]: the rows the
    database returns for [query_text wheres]. *)
Definition from_postgis {E : Externals} (engine : Engine geom)
    (wheres : list where_clause) : result (list (track_row geom)) :=
  p ← where_all wheres;
  Ok (order_by_time
        (flat_map
           (fun fp =>
              map (select_row fp)
                  (List.filter (fun f => f_id f =? fp_flight_id fp) (flights engine)))
           (List.filter p (flight_points engine)))).

(** [epsg != 4326] *)
Definition not_4326 (epsg : option Z) : bool :=
  match epsg with
  | Some code => negb (code =? 4326)
  | None => true
  end.

(** The geometry column [frame.buffer(d).to_crs(epsg=4326)] of a frame in
    EPSG:3338. *)
Definition buffered_geometry {E : Externals} (d : Z)
    (ak_albers_mask : GeoDataFrame geom) : list geom :=
  map (transform (EPSG 3338) (EPSG 4326))
      (map (buffer d) (gdf_geometry ak_albers_mask)).

(** [query_tracks]. [mask] is the reference the caller passes, or [None]. *)
Definition query_tracks {E : Externals} (engine : Engine geom)
    (start_date end_date : string) (mask : option loc)
    (mask_buffer_distance : option Z) : M (list (track_row geom)) :=
  let wheres := [DateBetween start_date end_date] in
  wheres ←
    match mask with
    | None => mret wheres
    | Some mask =>
        m ← load mask;
        epsg ← lift (frame_epsg m);
        mask ← (if not_4326 epsg
                then (m' ← lift (to_crs 4326 m); alloc m')
                else mret mask);
        m ← load mask;
        store mask (set_dissolve_field m);;
        (if truthy mask_buffer_distance
         then
           m ← load mask;
           ak_albers_mask ← lift (to_crs 3338 m);
           store mask
             (set_geometry
                (buffered_geometry (distance mask_buffer_distance) ak_albers_mask) m)
         else mret tt);;
        m ← load mask;
        mask_wkt ← lift (dissolve_squeeze_wkt m);
        mret (wheres ++ [MaskIntersects mask_wkt])
    end;
  flight_tracks ← lift (from_postgis engine wheres);
  mret (List.filter (fun r => negb (is_empty (geometry r))) flight_tracks).

(** ** [query_adsb] *)

Definition is_space (c : ascii) : bool :=
  let n := nat_of_ascii c in
  ((n =? 32) || ((9 <=? n) && (n <=? 13)) || ((28 <=? n) && (n <=? 31)))%nat.

Definition is_digit (c : ascii) : bool :=
  let n := nat_of_ascii c in
  ((48 <=? n) && (n <=? 57))%nat.

Definition digit_value (c : ascii) : Z := Z.of_nat (nat_of_ascii c) - 48.

Fixpoint drop_spaces (cs : list ascii) : list ascii :=
  match cs with
  | c :: rest => if is_space c then drop_spaces rest else cs
  | [] => []
  end.

(** The digits of an integer literal: at least one digit, and single
    underscores only between digits. [after_digit] tells whether the
    character before was a digit. *)
Fixpoint parse_digits (cs : list ascii) (acc : Z) (after_digit : bool)
  : option Z :=
  match cs with
  | [] => if after_digit then Some acc else None
  | c :: rest =>
      if is_digit c then parse_digits rest (10 * acc + digit_value c) true
      else if (Ascii.eqb c "_" && after_digit)%bool then parse_digits rest acc false
      else None
  end.

(** [int(s)] on a string: blanks around the literal are dropped, a sign may
    come first. *)
Definition int_of_string (s : string) : result Z :=
  let cs := rev (drop_spaces (rev (drop_spaces (list_ascii_of_string s)))) in
  let parsed :=
    match cs with
    | "+"%char :: rest => parse_digits rest 0 false
    | "-"%char :: rest => Z.opp <$> parse_digits rest 0 false
    | _ => parse_digits cs 0 false
    end in
  match parsed with
  | Some z => Ok z
  | None => Raise ValueError
  end.

(** [exclude_early_ADSB == False] *)
Definition is_False (flag : option bool) : bool :=
  match flag with
  | Some false => true
  | _ => false
  end.

(** Comparing the [TIME] column with a string: the string is read as a
    timestamp, and a string that is none cannot be compared. *)
Definition timestamp {E : Externals} (date : string) : result Z :=
  match pd_timestamp date with
  | Some t => Ok t
  | None => Raise TypeError
  end.

(** [frame.loc[cond]] on the rows; the frame keeps its class and its
    reference system. *)
Definition loc_rows {geom : Type} (keep : adsb_row geom -> bool)
    (adsb : Tracks geom) : Tracks geom :=
  MkTracks (tracks_reader adsb) (tracks_crs adsb)
           (List.filter keep (tracks_rows adsb)).

(** [adsb.set_crs(epsg='4326', inplace=True)]: a frame that has another
    reference system refuses. *)
Definition set_crs {geom : Type} (code : Z) (adsb : Tracks geom)
  : result (Tracks geom) :=
  match tracks_crs adsb with
  | None => Ok (MkTracks (tracks_reader adsb) (Some (EPSG code)) (tracks_rows adsb))
  | Some c =>
      if crs_eqb c (EPSG code) then Ok adsb else Raise ValueError
  end.

(** [gpd.clip(adsb, mask)]: the selected rows, each with its geometry cut
    to the mask; the other columns of a row are kept. *)
Definition clip {E : Externals} (adsb : Tracks geom) (mask : GeoDataFrame geom)
  : Tracks geom :=
  MkTracks (tracks_reader adsb) (tracks_crs adsb)
    (omap (fun r =>
             g ← clip_geom (gdf_geometry mask) (adsb_geometry r);
             Some (MkAdsbRow (TIME r) g (adsb_rest r)))
          (tracks_rows adsb)).

(** The branch of lines 146 to 151: which files are globbed and which
    class reads them. *)
Definition uses_early (year : Z) (exclude_early_ADSB : option bool) : bool :=
  (year <=? 2019) && is_False exclude_early_ADSB.

Definition glob_pattern (early : bool) : string :=
  if early then "*.txt"%string else "*.TSV"%string.

Definition read_files {E : Externals} (adsb_path : string) (early : bool)
  : result (Tracks geom) :=
  let adsb_files := glob_glob (os_path_join adsb_path (glob_pattern early)) in
  if early
  then '(crs, rows) ← read_EarlyAdsb adsb_files; Ok (MkTracks EarlyAdsb crs rows)
  else '(crs, rows) ← read_Adsb adsb_files; Ok (MkTracks Adsb crs rows).

(** [query_adsb]. The [print] of line 160 is left out. *)
Definition query_adsb {E : Externals} (adsb_path start_date end_date : string)
    (mask : option loc) (mask_buffer_distance : option Z)
    (exclude_early_ADSB : option bool) : M (Tracks geom) :=
  year ← lift (int_of_string (substring 0 4 start_date));
  adsb ← lift (read_files adsb_path (uses_early year exclude_early_ADSB));
  t1 ← lift (timestamp start_date);
  t2 ← lift (timestamp end_date);
  let adsb := loc_rows (fun r => (t1 <? TIME r) && (TIME r <? t2)) adsb in
  adsb ←
    match mask with
    | None => mret adsb
    | Some mask =>
        m ← load mask;
        epsg ← lift (frame_epsg m);
        mask ← (if not_4326 epsg
                then (m' ← lift (to_crs 4326 m); alloc m')
                else mret mask);
        (if truthy mask_buffer_distance
         then
           m ← load mask;
           ak_albers_mask ← lift (to_crs 3338 m);
           store mask
             (set_geometry
                (buffered_geometry (distance mask_buffer_distance) ak_albers_mask) m)
         else mret tt);;
        adsb ← lift (set_crs 4326 adsb);
        m ← load mask;
        mret (clip adsb m)
    end;
  mret (loc_rows (fun r => negb (is_empty (adsb_geometry r))) adsb).

(** ** A small instance of the outside world

    Geometries are finite sets of integer positions on a line; a
    reference system shifts positions by its EPSG code. The instance is
    used to run the functions on concrete inputs. *)

Definition crs_offset (c : CRS) : Z :=
  match c with
  | EPSG code => code
  | CustomCRS _ => 0
  end.

Definition line_is_empty (g : list Z) : bool :=
  match g with
  | [] => true
  | _ :: _ => false
  end.

Definition line_transform (c d : CRS) (g : list Z) : list Z :=
  map (fun x => x - crs_offset c + crs_offset d) g.

Definition line_buffer (d : Z) (g : list Z) : list Z :=
  flat_map (fun x => [x - d; x; x + d]) g.

Definition line_wkt (f : GeoDataFrame (list Z)) : result string :=
  match gdf_geometry f with
  | [] => Raise AttributeError
  | _ :: _ => Ok (String.concat " " (map str_of_int (List.concat (gdf_geometry f))))
  end.

Definition line_clip (mask : list (list Z)) (g : list Z) : option (list Z) :=
  let g' := List.filter (fun x => existsb (existsb (Z.eqb x)) mask) g in
  if line_is_empty g' then None else Some g'.

(** Days since 1970-01-01 of a date of the proleptic Gregorian calendar. *)
Definition days_from_civil (y m d : Z) : Z :=
  let y := if m <=? 2 then y - 1 else y in
  let era := y / 400 in
  let yoe := y - era * 400 in
  let doy := (153 * ((m + 9) mod 12) + 2) / 5 + d - 1 in
  let doe := yoe * 365 + yoe / 4 - yoe / 100 + doy in
  era * 146097 + doe - 719468.

Definition result_to_option {A : Type} (r : result A) : option A :=
  match r with
  | Ok a => Some a
  | Raise _ => None
  end.

(** The day of a text of the shape [YYYY-mm-dd]. *)
Definition iso_date (s : string) : option Z :=
  if ((String.length s =? 10)%nat
      && String.eqb (substring 4 1 s) "-" && String.eqb (substring 7 1 s) "-")%bool
  then
    y ← result_to_option (int_of_string (substring 0 4 s));
    m ← result_to_option (int_of_string (substring 5 2 s));
    d ← result_to_option (int_of_string (substring 8 2 s));
    Some (days_from_civil y m d)
  else None.

Definition demo_early_rows : list (adsb_row (list Z)) :=
  [ MkAdsbRow (18048 * usec_per_day) [5] [("flight", VStr "N1")];
    MkAdsbRow (18048 * usec_per_day + 1) [5] [("flight", VStr "N1")];
    MkAdsbRow (18049 * usec_per_day) [] [("flight", VStr "N2")];
    MkAdsbRow (18050 * usec_per_day - 1) [700] [("flight", VStr "N2")];
    MkAdsbRow (18050 * usec_per_day) [5] [("flight", VStr "N3")] ].

Definition demo_rows : list (adsb_row (list Z)) :=
  [ MkAdsbRow (18779 * usec_per_day + 7) [5] [("flight", VStr "N7")] ].

Definition demo_glob (pattern : string) : list string :=
  if String.eqb pattern "/adsb/*.txt" then ["/adsb/2019.txt"%string]
  else if String.eqb pattern "/adsb/*.TSV" then ["/adsb/2021.TSV"%string]
  else [].

Definition demo_reader (rows : list (adsb_row (list Z))) (files : list string)
  : result (option CRS * list (adsb_row (list Z))) :=
  match files with
  | [] => Raise ValueError
  | _ :: _ => Ok (None, rows)
  end.

Definition demo : Externals := {|
  geom := list Z;
  is_empty := line_is_empty;
  transform := line_transform;
  buffer := line_buffer;
  dissolve_squeeze_wkt := line_wkt;
  clip_geom := line_clip;
  ST_Intersects := fun _ _ => true;
  pg_date := iso_date;
  pd_timestamp := fun s => (fun d => d * usec_per_day) <$> iso_date s;
  os_path_join := fun a b => (a ++ "/" ++ b)%string;
  glob_glob := demo_glob;
  read_EarlyAdsb := demo_reader demo_early_rows;
  read_Adsb := demo_reader demo_rows
|}.

(** A mask already in EPSG:4326, one in EPSG:3338, and a heap holding them
    at locations 1 and 2. *)
Definition demo_mask : GeoDataFrame (list Z) :=
  MkFrame (Some (EPSG 4326)) [("name", [VStr "park"])] [[5; 6]].

Definition demo_albers_mask : GeoDataFrame (list Z) :=
  MkFrame (Some (EPSG 3338)) [("name", [VStr "park"])] [[-983; -982]].

Definition demo_heap : gmap loc (GeoDataFrame (list Z)) :=
  <[2%positive := demo_albers_mask]> (<[1%positive := demo_mask]> ∅).

Definition demo_engine : Engine (list Z) :=
  MkEngine
    [ MkFlight 1 "N1"; MkFlight 2 "N2" ]
    [ MkFlightPoint 1 1000 (18049 * usec_per_day + 5) [6];
      MkFlightPoint 1 2000 (18048 * usec_per_day) [5];
      MkFlightPoint 2 3000 (18050 * usec_per_day) [7];
      MkFlightPoint 2 1500 (18048 * usec_per_day + 9) [];
      MkFlightPoint 2 1500 (18047 * usec_per_day) [5] ].

Definition demo_metadata : list (meta_row Z) :=
  [ MetaRow "DENA" (CInt 9) 2019 63 (-150) 600 2;
    MetaRow "DENA" (CStr "TRLA") 2019 64 (-151) 700 3;
    MetaRow "DENA" (CInt 9) 2019 65 (-152) 800 4 ].

(** ** [get_logger] *)

(** The levels the module [logging] knows by name; the names are matched
    as written, upper case. *)
Definition level_of_name (level : string) : option Z :=
  if String.eqb level "CRITICAL" then Some 50
  else if String.eqb level "FATAL" then Some 50
  else if String.eqb level "ERROR" then Some 40
  else if String.eqb level "WARNING" then Some 30
  else if String.eqb level "WARN" then Some 30
  else if String.eqb level "INFO" then Some 20
  else if String.eqb level "DEBUG" then Some 10
  else if String.eqb level "NOTSET" then Some 0
  else None.

(** Where a handler writes: [_TqdmStream], whose [write] hands the text
    to [tqdm.write] with an empty end. *)
Inductive stream : Type :=
  | TqdmStream.

Record Handler : Type := MkHandler {
  handler_stream : stream;
  handler_format : string
}.

Record Logger : Type := MkLogger {
  logger_level : Z;
  logger_handlers : list Handler
}.

Definition log_format : string :=
  "%(asctime)s - %(name)s - %(levelname)s - %(message)s".

(** The name a logger is registered under: the empty name stands for the
    root logger. *)
Definition logger_key (name : string) : string :=
  if String.eqb name "" then "root"%string else name.

(** A logger as [logging] first makes it: no handler, level [NOTSET], and
    [WARNING] for the root logger. *)
Definition new_logger (key : string) : Logger :=
  MkLogger (if String.eqb key "root" then 30 else 0) [].

(** [logging.getLogger(name)]: the logger registered under the name,
    made and registered at the first request. *)
Definition getLogger (name : string) (loggers : gmap string Logger)
  : gmap string Logger * Logger :=
  match loggers !! logger_key name with
  | Some logger => (loggers, logger)
  | None =>
      (<[logger_key name := new_logger (logger_key name)]> loggers,
       new_logger (logger_key name))
  end.

(** [get_logger]. The registry of loggers is threaded through; the value
    returned is the registered name of the logger. [setLevel] raises
    [ValueError] for a name that is no level; [addHandler] appends, since a
    handler made by this call is never in the list already. *)
Definition get_logger (name level : string) (loggers : gmap string Logger)
  : gmap string Logger * result string :=
  let '(loggers, logger) := getLogger name loggers in
  match level_of_name level with
  | None => (loggers, Raise ValueError)
  | Some lv =>
      let handler := MkHandler TqdmStream log_format in
      (<[logger_key name := MkLogger lv (logger_handlers logger ++ [handler])]> loggers,
       Ok (logger_key name))
  end.

(** The handlers and the level of a name in a registry, for a name not
    yet registered those of a new logger. *)
Definition registered (loggers : gmap string Logger) (name : string) : Logger :=
  default (new_logger (logger_key name)) (loggers !! logger_key name).

(** One call of [get_logger] after the other, with the same name. *)
Fixpoint get_logger_each (name : string) (levels : list string)
    (loggers : gmap string Logger) : gmap string Logger :=
  match levels with
  | [] => loggers
  | level :: rest => get_logger_each name rest (get_logger name level loggers).1
  end.

(** ** Notions used in the statements *)

(** The object the caller's mask is after [query_tracks]: untouched when
    the function worked on a reprojected copy, changed in place when the
    mask was already in EPSG:4326. *)
Definition tracks_mask_after {E : Externals} (d : option Z) (m : GeoDataFrame geom)
  : GeoDataFrame geom :=
  match gdf_crs m with
  | None => m
  | Some c =>
      if not_4326 (to_epsg c) then m
      else
        let m1 := set_dissolve_field m in
        if truthy d
        then set_geometry
               (buffered_geometry (distance d)
                  (MkFrame (Some (EPSG 3338)) (gdf_columns m1)
                     (map (transform c (EPSG 3338)) (gdf_geometry m1))))
               m1
        else m1
  end.

(** The same for [query_adsb], which adds no column. *)
Definition adsb_mask_after {E : Externals} (d : option Z) (m : GeoDataFrame geom)
  : GeoDataFrame geom :=
  match gdf_crs m with
  | None => m
  | Some c =>
      if not_4326 (to_epsg c) then m
      else
        if truthy d
        then set_geometry
               (buffered_geometry (distance d)
                  (MkFrame (Some (EPSG 3338)) (gdf_columns m)
                     (map (transform c (EPSG 3338)) (gdf_geometry m))))
               m
        else m
  end.

(** A row [r] of a result comes from the row [r0] of the frame that was
    read: same [TIME], same other columns; only the geometry may have been
    cut by the mask. *)
Definition comes_from {geom : Type} (r r0 : adsb_row geom) : Prop :=
  TIME r = TIME r0 /\ adsb_rest r = adsb_rest r0.

(** The reading of a file name that the docstring of [get_omni_sources]
    gives ([O_+005 = .5], [O_+050 = 5], [O_+500 = 50]): the sign and the
    three digits after [O_] are the gain in tenths. *)
Definition name_tenths (name : string) : option Z :=
  match name with
  | String "O" (String "_" (String s (String a (String b (String c rest))))) =>
      if (is_digit a && is_digit b && is_digit c && String.eqb rest ".src")%bool
      then
        let n := 100 * digit_value a + 10 * digit_value b + digit_value c in
        if Ascii.eqb s "+" then Some n
        else if Ascii.eqb s "-" then Some (- n)
        else None
      else None
  | _ => None
  end.

Definition name_gain (name : string) : option Q :=
  (fun t => t # 10) <$> name_tenths name.

(** The geometry of the mask once it is in EPSG:4326: reprojected where
    the mask came in another reference system. *)
Definition mask_in_wgs84 {E : Externals} (m : GeoDataFrame geom) : list geom :=
  match gdf_crs m with
  | Some c =>
      if not_4326 (to_epsg c)
      then map (transform c (EPSG 4326)) (gdf_geometry m)
      else gdf_geometry m
  | None => gdf_geometry m
  end.

(** The geometry the queries filter with: with a buffer distance, each
    geometry is taken to EPSG:3338, buffered there and taken back. *)
Definition mask_geometry_used {E : Externals} (d : option Z)
    (m : GeoDataFrame geom) : list geom :=
  if truthy d
  then map (transform (EPSG 3338) (EPSG 4326))
         (map (buffer (distance d))
            (map (transform (EPSG 4326) (EPSG 3338)) (mask_in_wgs84 m)))
  else mask_in_wgs84 m.

(** Rows in ascending order of [ak_datetime]. *)
Definition time_ordered {geom : Type} (rows : list (track_row geom)) : Prop :=
  StronglySorted (fun a b => ak_datetime a <= ak_datetime b) rows.

(** The rows of the join of points and flights that a condition selects. *)
Definition joined_row {E : Externals} (engine : Engine geom)
    (p : flight_point geom -> bool) (r : track_row geom) : Prop :=
  exists fp f,
    In fp (flight_points engine) /\ In f (flights engine)
    /\ f_id f = fp_flight_id fp /\ p fp = true /\ r = select_row fp f.

(** The frame [query_tracks] dissolves: the mask in EPSG:4326 with the
    column [dissolve_field] and the geometry the query filters with. *)
Definition tracks_prepared_mask {E : Externals} (d : option Z)
    (m : GeoDataFrame geom) : GeoDataFrame geom :=
  MkFrame (Some (EPSG 4326))
    (set_column "dissolve_field" (repeat (VInt 1) (List.length (gdf_geometry m)))
       (gdf_columns m))
    (mask_geometry_used d m).

(** The frame [query_adsb] clips with. *)
Definition adsb_prepared_mask {E : Externals} (d : option Z)
    (m : GeoDataFrame geom) : GeoDataFrame geom :=
  MkFrame (Some (EPSG 4326)) (gdf_columns m) (mask_geometry_used d m).

(** * Properties *)

(** ** Strings and ranges *)

Lemma append_assoc (a b c : string) : ((a ++ b) ++ c = a ++ (b ++ c))%string.
Proof.
  induction a as [|x a IH]; [reflexivity |].
  change (String x ((a ++ b) ++ c) = String x (a ++ (b ++ c)))%string.
  now rewrite IH.
Qed.

(** A boolean property checked on every integer of a range holds on the
    whole range. *)
Lemma forall_range (P : Z -> bool) (lo : Z) (n : nat) :
  forallb P (map (fun k => lo + Z.of_nat k) (seq 0 n)) = true ->
  forall i, lo <= i < lo + Z.of_nat n -> P i = true.
Proof.
  intros Hall i Hi.
  rewrite forallb_forall in Hall. apply Hall.
  apply in_map_iff. exists (Z.to_nat (i - lo)). split; [lia |].
  apply in_seq. lia.
Qed.

Lemma py_range_step5 (a : Z) (n : nat) :
  py_range (5 * a) (5 * (a + Z.of_nat n)) 5
  = map (fun j => 5 * (a + Z.of_nat j)) (seq 0 n).
Proof.
  unfold py_range.
  replace ((5 * (a + Z.of_nat n) - 5 * a + 5 - 1) / 5) with (Z.of_nat n).
  - rewrite Nat2Z.id. apply map_ext. intros j. lia.
  - apply Z.div_unique with (r := 4); lia.
Qed.

(** ** Numbers *)

Lemma py_int_inject (x : Q) (z : Z) : (x == inject_Z z)%Q -> py_int x = z.
Proof.
  intros H. unfold py_int.
  destruct (Qle_bool 0 x).
  - rewrite (Qfloor_comp _ _ H). apply Qfloor_Z.
  - rewrite (Qceiling_comp _ _ H). apply Qceiling_Z.
Qed.

Lemma half_div (x : Q) (k : Z) : (x == k # 2)%Q -> (x / (1 # 2) == inject_Z k)%Q.
Proof.
  intros H. rewrite H. unfold Qeq, Qdiv, Qmult, Qinv, inject_Z. simpl. lia.
Qed.

Lemma py_mod_half (x : Q) (k : Z) :
  (x == k # 2)%Q -> Qeq_bool (py_mod x (1 # 2)) 0 = true.
Proof.
  intros H. apply Qeq_bool_iff. unfold py_mod.
  rewrite (Qfloor_comp _ _ (half_div x k H)), Qfloor_Z, H.
  unfold Qeq, Qminus, Qplus, Qmult, Qopp, inject_Z. simpl. lia.
Qed.

Lemma py_mod_half_inv (x : Q) :
  Qeq_bool (py_mod x (1 # 2)) 0 = true -> half_step x.
Proof.
  intros H. apply Qeq_bool_iff in H. unfold py_mod in H.
  exists (Qfloor (x / (1 # 2))).
  set (k := Qfloor (x / (1 # 2))) in *.
  assert (Hx : (x == (1 # 2) * inject_Z k)%Q).
  { rewrite <- (Qplus_0_r ((1 # 2) * inject_Z k)), <- H. ring. }
  rewrite Hx. unfold Qeq, Qmult, inject_Z. simpl. lia.
Qed.

Lemma half_step_bounds (x : Q) (k : Z) :
  (x == k # 2)%Q -> forall c : Z, ((inject_Z c <= x)%Q <-> 2 * c <= k) /\ ((x <= inject_Z c)%Q <-> k <= 2 * c).
Proof.
  intros H c. rewrite H. unfold Qle, inject_Z. simpl. lia.
Qed.

Lemma half_step_le (x y : Q) (k l : Z) :
  (x == k # 2)%Q -> (y == l # 2)%Q -> ((x <= y)%Q <-> k <= l).
Proof.
  intros Hx Hy. rewrite Hx, Hy. unfold Qle. simpl. lia.
Qed.

(** ** [get_omni_sources] *)

(** On three-digit tenths the two format specifications of the loop
    produce the name of the convention. *)
Lemma omni_source_path (D : string) (i : Z) :
  -999 <= i <= 999 -> omni_source D i = omni_path D i.
Proof.
  intros Hi.
  pose (same := fun i : Z =>
                 String.eqb
                   (if i <? 0
                    then ("\data\tuning" ++ "\O_" ++ format_zero_width 4 i ++ ".src")%string
                    else ("\data\tuning" ++ "\O_+" ++ format_zero_width 3 i ++ ".src")%string)
                   ("\data\tuning" ++ "\" ++ "O_" ++ tenths_name i ++ ".src")%string).
  assert (H : same i = true).
  { apply (forall_range same (-999) 1999); [vm_compute; reflexivity | lia]. }
  unfold same in H. apply String.eqb_eq in H.
  unfold omni_source, omni_source_dir, omni_path.
  destruct (i <? 0); rewrite append_assoc; f_equal; exact H.
Qed.

Lemma bounds_check (lower upper : Q) (kl ku : Z) :
  (lower == kl # 2)%Q -> (upper == ku # 2)%Q ->
  (Qle_bool (-30) upper && Qle_bool upper 50
   && (Qle_bool (-30) lower && Qle_bool lower 50)
   && Qle_bool lower upper)%bool = true
  <-> -60 <= kl /\ kl <= ku /\ ku <= 100.
Proof.
  intros Hl Hu.
  rewrite !andb_true_iff, !Qle_bool_iff.
  pose proof (half_step_bounds lower kl Hl (-30)) as [L1 _].
  pose proof (half_step_bounds lower kl Hl 50) as [_ L2].
  pose proof (half_step_bounds upper ku Hu (-30)) as [U1 _].
  pose proof (half_step_bounds upper ku Hu 50) as [_ U2].
  pose proof (half_step_le lower upper kl ku Hl Hu) as LU.
  change (inject_Z (-30)) with (-30)%Q in *.
  change (inject_Z 50) with 50%Q in *.
  rewrite L1, L2, U1, U2, LU. lia.
Qed.

(** The list the function returns on valid bounds [kl/2] and [ku/2]. *)
Lemma get_omni_sources_eq (D : string) (lower upper : Q) (kl ku : Z) :
  (lower == kl # 2)%Q -> (upper == ku # 2)%Q ->
  -60 <= kl -> kl <= ku -> ku <= 100 ->
  get_omni_sources D lower upper
  = Ok (map (fun j => omni_path D (5 * (kl + Z.of_nat j)))
            (seq 0 (Z.to_nat (ku - kl + 1)))).
Proof.
  intros Hl Hu H1 H2 H3. unfold get_omni_sources.
  assert (Hb := proj2 (bounds_check lower upper kl ku Hl Hu) (conj H1 (conj H2 H3))).
  rewrite Hb, (py_mod_half upper ku Hu), (py_mod_half lower kl Hl).
  cbn [py_assert mbind result_bind].
  f_equal.
  rewrite (py_int_inject (lower * 10) (5 * kl)),
          (py_int_inject (upper * 10 + 5) (5 * (kl + Z.of_nat (Z.to_nat (ku - kl + 1))))).
  - rewrite py_range_step5, map_map.
    apply map_ext_in. intros j Hj. apply in_seq in Hj.
    apply omni_source_path. lia.
  - rewrite Hu. unfold Qeq, Qplus, Qmult, inject_Z. simpl. lia.
  - rewrite Hl. unfold Qeq, Qmult, inject_Z. simpl. lia.
Qed.

(** A call that returns had valid bounds. *)
Lemma get_omni_sources_Ok_valid (D : string) (lower upper : Q) (paths : list string) :
  get_omni_sources D lower upper = Ok paths ->
  exists kl ku, (lower == kl # 2)%Q /\ (upper == ku # 2)%Q
                /\ -60 <= kl /\ kl <= ku /\ ku <= 100.
Proof.
  unfold get_omni_sources.
  destruct (Qle_bool (-30) upper && Qle_bool upper 50
            && (Qle_bool (-30) lower && Qle_bool lower 50)
            && Qle_bool lower upper)%bool eqn:Hb; [| discriminate].
  destruct (Qeq_bool (py_mod upper (1 # 2)) 0) eqn:Hu; [| discriminate].
  destruct (Qeq_bool (py_mod lower (1 # 2)) 0) eqn:Hl; [| discriminate].
  intros _.
  destruct (py_mod_half_inv _ Hu) as [ku Hku].
  destruct (py_mod_half_inv _ Hl) as [kl Hkl].
  exists kl, ku. split; [exact Hkl |]. split; [exact Hku |].
  apply (bounds_check lower upper kl ku Hkl Hku). exact Hb.
Qed.

(** C2. For every pair of bounds with [-30 <= lower <= upper <= 50], both
    multiples of 0.5, [get_omni_sources] returns a list of exactly
    [(upper - lower) / 0.5 + 1] paths, and the [j]-th path (counting from
    0) is the path of the convention for the gain [lower + j * 0.5],
    written in tenths: the gains increase strictly along the list, the
    sign is always written (["+"] for the non-negative values) and the
    magnitude has three digits. *)
Theorem get_omni_sources_valid (D : string) (lower upper : Q) :
  valid_bounds lower upper ->
  exists paths : list string,
    get_omni_sources D lower upper = Ok paths
    /\ (inject_Z (Z.of_nat (List.length paths)) == (upper - lower) / (1 # 2) + 1)%Q
    /\ forall j : nat, (j < List.length paths)%nat ->
         exists t : Z,
           (inject_Z t == (lower + inject_Z (Z.of_nat j) * (1 # 2)) * 10)%Q
           /\ nth_error paths j = Some (omni_path D t).
Proof.
  intros (Hlo & Hlu & Hhi & [kl Hl] & [ku Hu]).
  assert (H1 : -60 <= kl).
  { apply (half_step_bounds lower kl Hl (-30)) in Hlo. lia. }
  assert (H2 : kl <= ku) by (apply (half_step_le lower upper kl ku Hl Hu); exact Hlu).
  assert (H3 : ku <= 100).
  { apply (half_step_bounds upper ku Hu 50) in Hhi. lia. }
  eexists. split; [apply (get_omni_sources_eq D lower upper kl ku); assumption |].
  rewrite length_map, length_seq. split.
  - rewrite Z2Nat.id by lia. rewrite Hl, Hu.
    unfold Qeq, Qdiv, Qminus, Qplus, Qmult, Qinv, Qopp, inject_Z. simpl. lia.
  - intros j Hj. exists (5 * (kl + Z.of_nat j)). split.
    + rewrite Hl. unfold Qeq, Qplus, Qmult, inject_Z. simpl. lia.
    + rewrite nth_error_map, nth_error_seq.
      destruct (Nat.ltb_spec j (Z.to_nat (ku - kl + 1))); [reflexivity | lia].
Qed.

(** The example of the specification: bounds -5 and 5 give the 21 files
    from [O_-050.src] to [O_+050.src]. *)
Example get_omni_sources_minus5_5 (D : string) :
  get_omni_sources D (-5) 5
  = Ok (map (fun name => (D ++ "\data\tuning\" ++ name)%string)
          [ "O_-050.src"; "O_-045.src"; "O_-040.src"; "O_-035.src"; "O_-030.src";
            "O_-025.src"; "O_-020.src"; "O_-015.src"; "O_-010.src"; "O_-005.src";
            "O_+000.src"; "O_+005.src"; "O_+010.src"; "O_+015.src"; "O_+020.src";
            "O_+025.src"; "O_+030.src"; "O_+035.src"; "O_+040.src"; "O_+045.src";
            "O_+050.src" ]%string).
Proof.
  rewrite (get_omni_sources_eq D (-5) 5 (-10) 10); [reflexivity | try reflexivity; lia ..].
Qed.

Lemma get_omni_sources_valid_witness :
  valid_bounds (-5) 5 /\
  exists paths : list string,
    get_omni_sources "C:\nmsim" (-5) 5 = Ok paths
    /\ (inject_Z (Z.of_nat (List.length paths)) == (5 - -5) / (1 # 2) + 1)%Q
    /\ forall j : nat, (j < List.length paths)%nat ->
         exists t : Z,
           (inject_Z t == (-5 + inject_Z (Z.of_nat j) * (1 # 2)) * 10)%Q
           /\ nth_error paths j = Some (omni_path "C:\nmsim" t).
Proof.
  assert (V : valid_bounds (-5) 5).
  { repeat split; try (unfold Qle; simpl; lia);
      [exists (-10) | exists 10]; reflexivity. }
  split; [exact V | exact (get_omni_sources_valid "C:\nmsim" (-5) 5 V)].
Defined.

(** The three assertions, in the order the function makes them. *)
Lemma get_omni_sources_raises (D : string) (lower upper : Q) :
  (lower < -30 \/ 50 < lower \/ upper < -30 \/ 50 < upper \/ upper < lower)%Q
  \/ ~ half_step lower \/ ~ half_step upper ->
  get_omni_sources D lower upper = Raise (AssertionError bounds_msg)
  \/ get_omni_sources D lower upper = Raise (AssertionError upper_msg)
  \/ get_omni_sources D lower upper = Raise (AssertionError lower_msg).
Proof.
  intros H. unfold get_omni_sources.
  destruct (Qle_bool (-30) upper && Qle_bool upper 50
            && (Qle_bool (-30) lower && Qle_bool lower 50)
            && Qle_bool lower upper)%bool eqn:Hb; [| left; reflexivity].
  destruct (Qeq_bool (py_mod upper (1 # 2)) 0) eqn:Hu; [| right; left; reflexivity].
  destruct (Qeq_bool (py_mod lower (1 # 2)) 0) eqn:Hl; [| right; right; reflexivity].
  exfalso.
  rewrite !andb_true_iff, !Qle_bool_iff in Hb.
  destruct Hb as [[[B1 B2] [B3 B4]] B5].
  destruct H as [H | [H | H]].
  - destruct H as [H | [H | [H | [H | H]]]];
      eapply Qlt_not_le; eassumption.
  - apply H. exact (py_mod_half_inv _ Hl).
  - apply H. exact (py_mod_half_inv _ Hu).
Qed.

(** C3. Whenever a bound lies outside [[-30, 50]], [upper < lower], or a
    bound is no multiple of 0.5, [get_omni_sources] raises an
    [AssertionError] carrying one of its three messages; and on no input
    at all does it return an empty list. *)
Theorem get_omni_sources_invalid (D : string) (lower upper : Q) :
  (lower < -30 \/ 50 < lower \/ upper < -30 \/ 50 < upper \/ upper < lower)%Q
  \/ ~ half_step lower \/ ~ half_step upper ->
  (exists msg : string,
     get_omni_sources D lower upper = Raise (AssertionError msg)
     /\ (msg = bounds_msg \/ msg = upper_msg \/ msg = lower_msg))
  /\ (forall lo up : Q, get_omni_sources D lo up <> Ok []).
Proof.
  intros H. split.
  - destruct (get_omni_sources_raises D lower upper H) as [E | [E | E]];
      eexists; (split; [exact E | tauto]).
  - intros lo up E.
    destruct (get_omni_sources_Ok_valid D lo up [] E) as (kl & ku & Hl & Hu & H1 & H2 & H3).
    rewrite (get_omni_sources_eq D lo up kl ku Hl Hu H1 H2 H3) in E.
    apply (f_equal (fun r => match r with Ok l => List.length l | Raise _ => 1%nat end)) in E.
    rewrite length_map, length_seq in E. simpl in E. lia.
Qed.

Lemma get_omni_sources_invalid_witness :
  (exists msg : string,
     get_omni_sources "C:\nmsim" (1 # 3) 60 = Raise (AssertionError msg)
     /\ (msg = bounds_msg \/ msg = upper_msg \/ msg = lower_msg))
  /\ (forall lo up : Q, get_omni_sources "C:\nmsim" lo up <> Ok []).
Proof.
  apply (get_omni_sources_invalid "C:\nmsim" (1 # 3) 60).
  left. right. right. right. left. reflexivity.
Defined.

(** C9. Every path [get_omni_sources] returns is the base install
    location, the directory [data\tuning] under it and a file name
    [O_{sign}{3-digit-tenths}.src], joined by backslashes (the separator
    of one platform, written out in the source); the tenths lie between
    -300 and 500. *)
Theorem omni_sources_naming (D : string) (lower upper : Q)
    (paths : list string) (p : string) :
  get_omni_sources D lower upper = Ok paths ->
  In p paths ->
  exists t : Z,
    -300 <= t <= 500
    /\ p = (D ++ "\data\tuning" ++ "\" ++ "O_" ++ tenths_name t ++ ".src")%string
    /\ String.length (tenths_name t) = 4%nat.
Proof.
  intros E Hp.
  destruct (get_omni_sources_Ok_valid D lower upper paths E)
    as (kl & ku & Hl & Hu & H1 & H2 & H3).
  rewrite (get_omni_sources_eq D lower upper kl ku Hl Hu H1 H2 H3) in E.
  injection E as <-.
  apply in_map_iff in Hp. destruct Hp as (j & <- & Hj).
  apply in_seq in Hj.
  exists (5 * (kl + Z.of_nat j)). split; [lia |]. split; reflexivity.
Qed.

Lemma omni_sources_naming_witness :
  exists t : Z,
    -300 <= t <= 500
    /\ "C:\nmsim\data\tuning\O_-005.src"%string
       = ("C:\nmsim" ++ "\data\tuning" ++ "\" ++ "O_" ++ tenths_name t ++ ".src")%string
    /\ String.length (tenths_name t) = 4%nat.
Proof.
  apply (omni_sources_naming "C:\nmsim" (-(1 # 2)) 0
           [ "C:\nmsim\data\tuning\O_-005.src"; "C:\nmsim\data\tuning\O_+000.src" ]%string).
  - vm_compute. reflexivity.
  - left. reflexivity.
Defined.

(** ** [get_deployment] *)

Lemma length_append (a b : string) :
  String.length (a ++ b) = (String.length a + String.length b)%nat.
Proof.
  induction a as [|x a IH]; [reflexivity |].
  change (S (String.length (a ++ b)) = S (String.length a + String.length b)).
  now rewrite IH.
Qed.

Lemma length_zeros (n : nat) : String.length (zeros n) = n.
Proof. induction n as [|n IH]; simpl; [reflexivity | now rewrite IH]. Qed.

(** [zfill] pads to the width and never shortens. *)
Lemma length_zfill (w : nat) (s : string) :
  String.length (zfill w s) = Nat.max w (String.length s).
Proof.
  unfold zfill. destruct (Nat.leb_spec w (String.length s)) as [H | H]; [lia |].
  destruct s as [|c rest].
  - rewrite length_zeros. simpl. lia.
  - destruct (Ascii.eqb c "+" || Ascii.eqb c "-")%bool.
    + change (S (String.length (zeros (w - String.length (String c rest)) ++ rest))
              = Nat.max w (String.length (String c rest))).
      rewrite length_append, length_zeros. simpl in *. lia.
    + rewrite length_append, length_zeros. lia.
Qed.

(** After line 54 the text of a code that is a string has at least three
    characters. *)
Lemma normalize_code_length (c : cell) (s : string) :
  normalize_code c = CStr s -> (3 <= String.length s)%nat.
Proof.
  unfold normalize_code.
  destruct (Nat.leb_spec (String.length (cell_str c)) 3) as [H | H].
  - intros [= <-]. rewrite length_zfill. lia.
  - intros ->. simpl in H. lia.
Qed.

(** The function returns what the first matching row of the file holds. *)
Lemma get_deployment_find {num : Type} (unit site : string) (year : Z)
    (metadata : list (meta_row num)) (elevation : bool) :
  get_deployment unit site year metadata elevation
  = match find (fun r => row_matches unit site year (normalize_row r)) metadata with
    | Some r =>
        Ok (MkMicrophone (row_lat r) (row_long r)
              (if elevation then row_elevation r else row_microphone_height r)
              (unit ++ site ++ str_of_int year)%string)
    | None => Raise IndexError
    end.
Proof.
  unfold get_deployment.
  induction metadata as [|r md IH]; [reflexivity |].
  cbn [map List.filter find].
  destruct (row_matches unit site year (normalize_row r)); [| exact IH].
  destruct elevation; reflexivity.
Qed.

(** C1, as the code has it. The zero-padding of line 54 is applied to the
    [code] column of the metadata and not to the [site] argument: a row
    whose code has at most three characters is selected by the padded text
    of its code (["009"] for a code read as [9]), and a site of fewer than
    three characters, such as ["9"], matches no row, so the call fails
    with an index error. *)
Theorem get_deployment_site_as_given {num : Type} (unit site : string) (year : Z)
    (metadata : list (meta_row num)) (elevation : bool) :
  ((String.length site < 3)%nat ->
   get_deployment unit site year metadata elevation = Raise IndexError)
  /\ (forall r : meta_row num,
        In r metadata -> row_unit r = unit -> row_year r = year ->
        (String.length (cell_str (row_code r)) <= 3)%nat ->
        zfill 3 (cell_str (row_code r)) = site ->
        exists mic, get_deployment unit site year metadata elevation = Ok mic).
Proof.
  rewrite get_deployment_find. split.
  - intros Hsite.
    destruct (find _ metadata) as [r |] eqn:F; [| reflexivity].
    apply find_some in F. destruct F as [_ F]. exfalso.
    unfold row_matches in F. rewrite !andb_true_iff in F.
    destruct F as [[_ F] _]. cbn [normalize_row row_code] in F.
    destruct (normalize_code (row_code r)) as [z | s] eqn:N; [discriminate |].
    apply normalize_code_length in N.
    cbn [cell_eq_str] in F. apply String.eqb_eq in F. subst s. lia.
  - intros r Hin Hu Hy Hlen Hz.
    destruct (find _ metadata) as [r' |] eqn:F; [eexists; reflexivity |].
    exfalso. apply (find_none _ _ F) in Hin.
    unfold row_matches, normalize_row, normalize_code in Hin.
    cbn [row_unit row_code row_year] in Hin.
    apply Nat.leb_le in Hlen. rewrite Hlen in Hin. cbn [cell_eq_str] in Hin.
    rewrite Hu, Hy, Hz, !String.eqb_refl, Z.eqb_refl in Hin. discriminate.
Qed.

(** A table with one deployment row, whose code the file gives as 009 and
    pandas reads as the number 9: the site ["009"] selects the row, the
    site ["9"] fails. *)
Lemma get_deployment_9_vs_009 :
  get_deployment "DENA" "009" 2019 [MetaRow "DENA" (CInt 9) 2019 63 (-150) 600 2] true
  = Ok (MkMicrophone 63 (-150) 600 "DENA0092019")
  /\ get_deployment "DENA" "9" 2019 [MetaRow "DENA" (CInt 9) 2019 63 (-150) 600 2] true
     = Raise IndexError.
Proof. split; reflexivity. Qed.

Lemma get_deployment_site_as_given_witness :
  get_deployment "DENA" "9" 2019 demo_metadata true = Raise IndexError
  /\ exists mic, get_deployment "DENA" "009" 2019 demo_metadata true = Ok mic.
Proof.
  split.
  - apply (get_deployment_site_as_given "DENA" "9" 2019 demo_metadata true).
    simpl. lia.
  - apply (proj2 (get_deployment_site_as_given "DENA" "009" 2019 demo_metadata true)
             (MetaRow "DENA" (CInt 9) 2019 63 (-150) 600 2)).
    + left. reflexivity.
    + reflexivity.
    + reflexivity.
    + simpl. lia.
    + reflexivity.
Defined.

(** C7, as the code has it. [get_deployment] fails with an index error
    when no row matches the unit, the site and the year; when at least
    one row matches, also when several do, it returns the values of the
    first matching row in the order of the file: latitude, longitude, the
    elevation if the flag is true and the microphone height otherwise, and
    the name unit+site+year. *)
Theorem get_deployment_first_match {num : Type} (unit site : string) (year : Z)
    (metadata : list (meta_row num)) (elevation : bool) :
  ((forall r, In r metadata ->
      row_matches unit site year (normalize_row r) = false) ->
   get_deployment unit site year metadata elevation = Raise IndexError)
  /\ (forall (before : list (meta_row num)) (r : meta_row num)
             (after : list (meta_row num)),
        metadata = before ++ r :: after ->
        (forall x, In x before ->
           row_matches unit site year (normalize_row x) = false) ->
        row_matches unit site year (normalize_row r) = true ->
        get_deployment unit site year metadata elevation
        = Ok (MkMicrophone (row_lat r) (row_long r)
                (if elevation then row_elevation r else row_microphone_height r)
                (unit ++ site ++ str_of_int year)%string)).
Proof.
  rewrite get_deployment_find. split.
  - intros Hnone.
    destruct (find _ metadata) as [r |] eqn:F; [| reflexivity].
    apply find_some in F. destruct F as [Hin F].
    rewrite (Hnone r Hin) in F. discriminate.
  - intros before r after -> Hbefore Hr.
    induction before as [|x before IH]; cbn [app find].
    + rewrite Hr. reflexivity.
    + rewrite (Hbefore x (or_introl eq_refl)).
      apply IH. intros y Hy. apply Hbefore. right. exact Hy.
Qed.

(** Two rows match unit DENA, site 009 and year 2019: the call does not
    fail, it returns the first of them. *)
Lemma get_deployment_two_matches :
  List.length
    (List.filter (row_matches "DENA" "009" 2019) (map normalize_row demo_metadata))
  = 2%nat
  /\ get_deployment "DENA" "009" 2019 demo_metadata true
     = Ok (MkMicrophone 63 (-150) 600 "DENA0092019").
Proof. split; reflexivity. Qed.

Lemma get_deployment_first_match_witness :
  get_deployment "DENA" "XYZ" 2019 demo_metadata false = Raise IndexError
  /\ get_deployment "DENA" "TRLA" 2019 demo_metadata false
     = Ok (MkMicrophone 64 (-151) 3 "DENATRLA2019").
Proof.
  split.
  - apply (get_deployment_first_match "DENA" "XYZ" 2019 demo_metadata false).
    intros r [<- | [<- | [<- | []]]]; reflexivity.
  - apply (proj2 (get_deployment_first_match "DENA" "TRLA" 2019 demo_metadata false)
             [MetaRow "DENA" (CInt 9) 2019 63 (-150) 600 2]
             (MetaRow "DENA" (CStr "TRLA") 2019 64 (-151) 700 3)
             [MetaRow "DENA" (CInt 9) 2019 65 (-152) 800 4]).
    + reflexivity.
    + intros x [<- | []]. reflexivity.
    + reflexivity.
Defined.

(** ** The heap monad *)

Section Queries.
Context {E : Externals}.

Lemma bind_Ok {A B : Type} (m : M A) (k : A -> M B) h h' (b : B) :
  (m ≫= k) h = (h', Ok b) ->
  exists h1 a, m h = (h1, Ok a) /\ k a h1 = (h', Ok b).
Proof.
  unfold mbind, M_bind. destruct (m h) as [h1 [a | e]]; [eauto | discriminate].
Qed.

Lemma bind_run {A B : Type} (m : M A) (k : A -> M B) h h1 (a : A) :
  m h = (h1, Ok a) -> (m ≫= k) h = k a h1.
Proof. unfold mbind, M_bind. now intros ->. Qed.

Lemma bind_Raise {A B : Type} (m : M A) (k : A -> M B) h h1 (e : exn) :
  m h = (h1, Raise e) -> (m ≫= k) h = (h1, Raise e).
Proof. unfold mbind, M_bind. now intros ->. Qed.

Lemma lift_Ok {A : Type} (r : result A) h h' (a : A) :
  lift r h = (h', Ok a) -> h' = h /\ r = Ok a.
Proof. unfold lift. now intros [= -> ->]. Qed.

Lemma mret_Ok {A : Type} (x : A) h h' (a : A) :
  (mret x : M A) h = (h', Ok a) -> h' = h /\ a = x.
Proof. unfold mret, M_ret. now intros [= -> ->]. Qed.

(** A new object never takes the place of a live one. *)
Lemma fresh_live (h : gmap loc (GeoDataFrame geom)) (l : loc) (m : GeoDataFrame geom) :
  h !! l = Some m -> fresh (dom h) <> l.
Proof.
  intros Hl Heq. apply (is_fresh (dom h)). rewrite Heq.
  apply elem_of_dom. eauto.
Qed.

(** ** Empty geometries *)

(** C4. Every row that [query_tracks] or [query_adsb] returns has a
    geometry that is not empty, with or without a mask. *)
Theorem queries_drop_empty_geometry :
  (forall engine start_date end_date mask d h h' rows,
     query_tracks engine start_date end_date mask d h = (h', Ok rows) ->
     forall r, In r rows -> is_empty (geometry r) = false)
  /\ (forall adsb_path start_date end_date mask d flag h h' adsb,
        query_adsb adsb_path start_date end_date mask d flag h = (h', Ok adsb) ->
        forall r, In r (tracks_rows adsb) -> is_empty (adsb_geometry r) = false).
Proof.
  split.
  - intros engine start_date end_date mask d h h' rows Hq r Hr.
    unfold query_tracks in Hq.
    apply bind_Ok in Hq. destruct Hq as (h1 & wheres & _ & Hq).
    apply bind_Ok in Hq. destruct Hq as (h2 & tracks & _ & Hq).
    apply mret_Ok in Hq. destruct Hq as [_ ->].
    apply filter_In in Hr. destruct Hr as [_ Hr].
    now apply negb_true_iff in Hr.
  - intros adsb_path start_date end_date mask d flag h h' adsb Hq r Hr.
    unfold query_adsb in Hq.
    apply bind_Ok in Hq. destruct Hq as (h1 & year & _ & Hq).
    apply bind_Ok in Hq. destruct Hq as (h2 & adsb0 & _ & Hq).
    apply bind_Ok in Hq. destruct Hq as (h3 & t1 & _ & Hq).
    apply bind_Ok in Hq. destruct Hq as (h4 & t2 & _ & Hq).
    apply bind_Ok in Hq. destruct Hq as (h5 & adsb1 & _ & Hq).
    apply mret_Ok in Hq. destruct Hq as [_ ->].
    cbn [loc_rows tracks_rows] in Hr.
    apply filter_In in Hr. destruct Hr as [_ Hr].
    now apply negb_true_iff in Hr.
Qed.

End Queries.

Lemma queries_drop_empty_geometry_witness :
  (forall r,
     In r [ MkTrackRow "N1" (2000 * (3048 # 10000))%Q (18048 * usec_per_day) [5]
              (18048 * usec_per_day);
            MkTrackRow "N1" (1000 * (3048 # 10000))%Q (18049 * usec_per_day + 5) [6]
              (18049 * usec_per_day) ] ->
     line_is_empty (geometry r) = false)
  /\ (forall r,
        In r [ MkAdsbRow (18048 * usec_per_day + 1) [5] [("flight", VStr "N1")];
               MkAdsbRow (18050 * usec_per_day - 1) [700] [("flight", VStr "N2")] ] ->
        line_is_empty (adsb_geometry r) = false).
Proof.
  split.
  - apply (proj1 (@queries_drop_empty_geometry demo)
             demo_engine "2019-06-01" "2019-06-02" None None demo_heap demo_heap).
    vm_compute. reflexivity.
  - apply (proj2 (@queries_drop_empty_geometry demo)
             "/adsb" "2019-06-01" "2019-06-03" None None (Some false) demo_heap demo_heap
             (MkTracks EarlyAdsb None
                [ MkAdsbRow (18048 * usec_per_day + 1) [5] [("flight", VStr "N1")];
                  MkAdsbRow (18050 * usec_per_day - 1) [700] [("flight", VStr "N2")] ])).
    vm_compute. reflexivity.
Defined.

(** ** What the queries do to the caller's mask *)

Section MaskEffects.
Context {E : Externals}.

Ltac run_heap :=
  repeat first
    [ progress cbn [fst snd set_dissolve_field set_geometry gdf_crs] in *
    | progress simplify_map_eq
    | case_match ].

Lemma query_tracks_heap engine start_date end_date mask d
    (h : gmap loc (GeoDataFrame geom)) (l : loc) (m : GeoDataFrame geom) :
  h !! l = Some m ->
  (query_tracks engine start_date end_date mask d h).1 !! l
  = Some (if decide (mask = Some l) then tracks_mask_after d m else m).
Proof.
  intros Hl. pose proof (fresh_live h l m Hl) as Hfresh.
  unfold query_tracks, tracks_mask_after, mbind, M_bind, mret, M_ret,
    load, store, alloc, lift, frame_epsg, to_crs.
  destruct mask as [l0 |].
  - destruct (decide (l0 = l)) as [-> | Hne].
    + rewrite decide_True by done. run_heap; done.
    + rewrite decide_False by congruence. run_heap; done.
  - rewrite decide_False by done. run_heap; done.
Qed.

Lemma query_adsb_heap adsb_path start_date end_date mask d flag
    (h : gmap loc (GeoDataFrame geom)) (l : loc) (m : GeoDataFrame geom) :
  h !! l = Some m ->
  (query_adsb adsb_path start_date end_date mask d flag h).1 !! l = Some m
  \/ (mask = Some l
      /\ (query_adsb adsb_path start_date end_date mask d flag h).1 !! l
         = Some (adsb_mask_after d m)).
Proof.
  intros Hl. pose proof (fresh_live h l m Hl) as Hfresh.
  unfold query_adsb, adsb_mask_after, mbind, M_bind, mret, M_ret,
    load, store, alloc, lift, frame_epsg, to_crs.
  destruct (int_of_string (substring 0 4 start_date)) as [year |]; [| by left].
  destruct (read_files adsb_path (uses_early year flag)) as [adsb |]; [| by left].
  destruct (timestamp start_date) as [t1 |]; [| by left].
  destruct (timestamp end_date) as [t2 |]; [| by left].
  destruct mask as [l0 |]; [| by left].
  destruct (decide (l0 = l)) as [-> | Hne].
  - right. split; [done |]. run_heap; done.
  - left. run_heap; done.
Qed.

End MaskEffects.

(** ** Buffer distance 0 *)

Section Buffer.
Context {E : Externals}.

(** C10. In both queries a buffer distance of 0 is treated as no buffer
    distance: the two calls agree on the result and on the heap they
    leave, and with distance 0 no geometry of a frame of the heap is
    replaced, so the filter uses the mask as it was given. *)
Theorem zero_buffer_is_no_buffer :
  (forall engine start_date end_date mask h,
     query_tracks engine start_date end_date mask (Some 0) h
     = query_tracks engine start_date end_date mask None h)
  /\ (forall adsb_path start_date end_date mask flag h,
        query_adsb adsb_path start_date end_date mask (Some 0) flag h
        = query_adsb adsb_path start_date end_date mask None flag h)
  /\ (forall engine start_date end_date mask h l m,
        h !! l = Some m ->
        exists m',
          (query_tracks engine start_date end_date mask (Some 0) h).1 !! l = Some m'
          /\ gdf_geometry m' = gdf_geometry m)
  /\ (forall adsb_path start_date end_date mask flag h l m,
        h !! l = Some m ->
        (query_adsb adsb_path start_date end_date mask (Some 0) flag h).1 !! l
        = Some m).
Proof.
  split; [reflexivity |]. split; [reflexivity |]. split.
  - intros engine start_date end_date mask h l m Hl.
    rewrite (query_tracks_heap engine start_date end_date mask (Some 0) h l m Hl).
    eexists. split; [reflexivity |].
    destruct (decide (mask = Some l)); [| reflexivity].
    unfold tracks_mask_after.
    destruct (gdf_crs m) as [c |]; [| reflexivity].
    destruct (not_4326 (to_epsg c)); reflexivity.
  - intros adsb_path start_date end_date mask flag h l m Hl.
    destruct (query_adsb_heap adsb_path start_date end_date mask (Some 0) flag h l m Hl)
      as [H | [_ H]]; [exact H |].
    rewrite H. f_equal. unfold adsb_mask_after.
    destruct (gdf_crs m) as [c |]; [| reflexivity].
    destruct (not_4326 (to_epsg c)); reflexivity.
Qed.

End Buffer.

Lemma zero_buffer_is_no_buffer_witness :
  (exists m',
     (@query_tracks demo demo_engine "2019-06-01" "2019-06-02" (Some 1%positive)
        (Some 0) demo_heap).1 !! 1%positive = Some m'
     /\ gdf_geometry m' = gdf_geometry demo_mask)
  /\ (@query_adsb demo "/adsb" "2019-06-01" "2019-06-03" (Some 1%positive)
        (Some 0) (Some false) demo_heap).1 !! 1%positive = Some demo_mask.
Proof.
  split.
  - apply (proj1 (proj2 (proj2 (@zero_buffer_is_no_buffer demo)))).
    vm_compute. reflexivity.
  - apply (proj2 (proj2 (proj2 (@zero_buffer_is_no_buffer demo)))).
    vm_compute. reflexivity.
Defined.

(** ** The caller's mask *)

(** C6 fails on the code. A mask that is already in EPSG:4326 is the
    object the caller holds, and the call changes it: [query_tracks] adds
    the column [dissolve_field] and, with a buffer distance, both queries
    replace its geometry by the buffered one. *)
Theorem queries_mutate_caller_mask :
  demo_heap !! 1%positive
  = Some (MkFrame (Some (EPSG 4326)) [("name", [VStr "park"])] [[5; 6]])
  /\ (@query_tracks demo demo_engine "2019-06-01" "2019-06-02" (Some 1%positive)
        (Some 100) demo_heap).1 !! 1%positive
     = Some (MkFrame (Some (EPSG 4326))
               [("name", [VStr "park"]); ("dissolve_field", [VInt 1])]
               [[-95; 5; 105; -94; 6; 106]])
  /\ (@query_tracks demo demo_engine "2019-06-01" "2019-06-02" (Some 1%positive)
        None demo_heap).1 !! 1%positive
     = Some (MkFrame (Some (EPSG 4326))
               [("name", [VStr "park"]); ("dissolve_field", [VInt 1])]
               [[5; 6]])
  /\ (@query_adsb demo "/adsb" "2019-06-01" "2019-06-03" (Some 1%positive)
        (Some 3) (Some false) demo_heap).1 !! 1%positive
     = Some (MkFrame (Some (EPSG 4326)) [("name", [VStr "park"])]
               [[2; 5; 8; 3; 6; 9]]).
Proof. repeat split; vm_compute; reflexivity. Qed.

Section CallerMask.
Context {E : Externals}.

(** The sibling path: a mask in another reference system is reprojected
    into a new frame, and the caller's object stays as it was. *)
Lemma reprojected_mask_untouched engine adsb_path start_date end_date d flag
    (h : gmap loc (GeoDataFrame geom)) (l : loc) (m : GeoDataFrame geom) (c : CRS) :
  h !! l = Some m -> gdf_crs m = Some c -> to_epsg c <> Some 4326 ->
  (query_tracks engine start_date end_date (Some l) d h).1 !! l = Some m
  /\ (query_adsb adsb_path start_date end_date (Some l) d flag h).1 !! l = Some m.
Proof.
  intros Hl Hc Hne.
  assert (H4 : not_4326 (to_epsg c) = true).
  { destruct (to_epsg c) as [code |]; [| reflexivity]. simpl.
    apply negb_true_iff, Z.eqb_neq. congruence. }
  split.
  - rewrite (query_tracks_heap _ _ _ _ _ h l m Hl), decide_True by reflexivity.
    unfold tracks_mask_after. now rewrite Hc, H4.
  - destruct (query_adsb_heap adsb_path start_date end_date (Some l) d flag h l m Hl)
      as [H | [_ H]]; [exact H |].
    rewrite H. unfold adsb_mask_after. now rewrite Hc, H4.
Qed.

(** A mask already in EPSG:4326 gets the column [dissolve_field] from
    [query_tracks], whatever the rest of the call does. *)
Lemma wgs84_mask_gets_column engine start_date end_date d
    (h : gmap loc (GeoDataFrame geom)) (l : loc) (m : GeoDataFrame geom) :
  h !! l = Some m -> gdf_crs m = Some (EPSG 4326) ->
  exists m',
    (query_tracks engine start_date end_date (Some l) d h).1 !! l = Some m'
    /\ gdf_columns m'
       = set_column "dissolve_field"
           (repeat (VInt 1) (List.length (gdf_geometry m))) (gdf_columns m).
Proof.
  intros Hl Hc.
  rewrite (query_tracks_heap _ _ _ _ _ h l m Hl), decide_True by reflexivity.
  eexists. split; [reflexivity |].
  unfold tracks_mask_after. rewrite Hc. cbn [to_epsg not_4326 Z.eqb negb].
  change (4326 =? 4326) with true. cbn [negb].
  destruct (truthy d); reflexivity.
Qed.

End CallerMask.

(** ** [query_adsb]: files, reader and date range *)

Section Adsb.
Context {E : Externals}.

Lemma read_files_Ok adsb_path (early : bool) (adsb : Tracks geom) :
  read_files adsb_path early = Ok adsb ->
  exists crs rows,
    (if early then read_EarlyAdsb else read_Adsb)
      (glob_glob (os_path_join adsb_path (if early then "*.txt" else "*.TSV")%string))
    = Ok (crs, rows)
    /\ adsb = MkTracks (if early then EarlyAdsb else Adsb) crs rows.
Proof.
  unfold read_files, glob_pattern, mbind, result_bind.
  destruct early.
  - destruct (read_EarlyAdsb _) as [[crs rows] | e]; [| discriminate].
    intros [= <-]. eauto.
  - destruct (read_Adsb _) as [[crs rows] | e]; [| discriminate].
    intros [= <-]. eauto.
Qed.

Lemma read_files_Raise adsb_path (early : bool) (e : exn) :
  (if early then read_EarlyAdsb else read_Adsb)
    (glob_glob (os_path_join adsb_path (if early then "*.txt" else "*.TSV")%string))
  = Raise e ->
  read_files adsb_path early = Raise e.
Proof.
  unfold read_files, glob_pattern, mbind, result_bind.
  destruct early; intros ->; reflexivity.
Qed.

Lemma set_crs_Ok (code : Z) (adsb adsb' : Tracks geom) :
  set_crs code adsb = Ok adsb' ->
  tracks_reader adsb' = tracks_reader adsb /\ tracks_rows adsb' = tracks_rows adsb.
Proof.
  unfold set_crs. destruct (tracks_crs adsb) as [c |].
  - destruct (crs_eqb c (EPSG code)); [| discriminate]. now intros [= <-].
  - now intros [= <-].
Qed.

Lemma clip_rows (adsb : Tracks geom) (mask : GeoDataFrame geom) (r : adsb_row geom) :
  In r (tracks_rows (clip adsb mask)) ->
  exists r0, In r0 (tracks_rows adsb) /\ comes_from r r0.
Proof.
  unfold clip. cbn [tracks_rows]. rewrite <- list_elem_of_In, list_elem_of_omap.
  intros (r0 & Hr0 & Hr). exists r0. split; [now apply list_elem_of_In |].
  destruct (clip_geom (gdf_geometry mask) (adsb_geometry r0)) as [g |];
    [| discriminate].
  cbn in Hr. injection Hr as <-. split; reflexivity.
Qed.

(** What a call that returns has done, step by step. *)
Lemma query_adsb_Ok adsb_path start_date end_date mask d flag h h' (adsb : Tracks geom) :
  query_adsb adsb_path start_date end_date mask d flag h = (h', Ok adsb) ->
  exists year crs rows t1 t2,
    int_of_string (substring 0 4 start_date) = Ok year
    /\ read_files adsb_path (uses_early year flag)
       = Ok (MkTracks (if uses_early year flag then EarlyAdsb else Adsb) crs rows)
    /\ pd_timestamp start_date = Some t1
    /\ pd_timestamp end_date = Some t2
    /\ tracks_reader adsb = (if uses_early year flag then EarlyAdsb else Adsb)
    /\ (forall r, In r (tracks_rows adsb) ->
          exists r0, In r0 rows /\ comes_from r r0 /\ t1 < TIME r0 < t2)
    /\ (mask = None ->
        tracks_rows adsb
        = List.filter (fun r => negb (is_empty (adsb_geometry r)))
            (List.filter (fun r => (t1 <? TIME r) && (TIME r <? t2)) rows)).
Proof.
  intros Hq. unfold query_adsb in Hq.
  apply bind_Ok in Hq. destruct Hq as (h1 & year & Hy & Hq).
  apply lift_Ok in Hy. destruct Hy as [-> Hy].
  apply bind_Ok in Hq. destruct Hq as (h2 & adsb0 & Hr & Hq).
  apply lift_Ok in Hr. destruct Hr as [-> Hr].
  apply bind_Ok in Hq. destruct Hq as (h3 & t1 & H1 & Hq).
  apply lift_Ok in H1. destruct H1 as [-> H1].
  apply bind_Ok in Hq. destruct Hq as (h4 & t2 & H2 & Hq).
  apply lift_Ok in H2. destruct H2 as [-> H2].
  apply bind_Ok in Hq. destruct Hq as (h5 & adsb1 & Hm & Hq).
  apply mret_Ok in Hq. destruct Hq as [-> ->].
  destruct (read_files_Ok _ _ _ Hr) as (crs & rows & _ & ->).
  unfold timestamp in H1, H2.
  destruct (pd_timestamp start_date) as [t1' |] eqn:P1; [| discriminate].
  destruct (pd_timestamp end_date) as [t2' |] eqn:P2; [| discriminate].
  injection H1 as ->. injection H2 as ->.
  exists year, crs, rows, t1, t2.
  split; [exact Hy |]. split; [exact Hr |]. split; [reflexivity |].
  split; [reflexivity |].
  set (timed := loc_rows (fun r => (t1 <? TIME r) && (TIME r <? t2))
                  (MkTracks (if uses_early year flag then EarlyAdsb else Adsb) crs rows))
    in Hm.
  assert (Htimed : forall r0, In r0 (tracks_rows timed) ->
                     In r0 rows /\ t1 < TIME r0 < t2).
  { intros r0 Hr0. unfold timed in Hr0. cbn [loc_rows tracks_rows] in Hr0.
    apply filter_In in Hr0. destruct Hr0 as [Hin Ht].
    apply andb_true_iff in Ht. destruct Ht as [Ha Hb].
    apply Z.ltb_lt in Ha, Hb. auto. }
  destruct mask as [l |].
  - apply bind_Ok in Hm. destruct Hm as (g1 & m0 & _ & Hm).
    apply bind_Ok in Hm. destruct Hm as (g2 & epsg & _ & Hm).
    apply bind_Ok in Hm. destruct Hm as (g3 & l' & _ & Hm).
    apply bind_Ok in Hm. destruct Hm as (g4 & [] & _ & Hm).
    apply bind_Ok in Hm. destruct Hm as (g5 & adsb' & Hs & Hm).
    apply lift_Ok in Hs. destruct Hs as [-> Hs].
    apply set_crs_Ok in Hs. destruct Hs as [Hreader Hrows].
    apply bind_Ok in Hm. destruct Hm as (g6 & m1 & _ & Hm).
    apply mret_Ok in Hm. destruct Hm as [_ ->].
    split; [exact Hreader |]. split; [| discriminate].
    intros r Hin. cbn [loc_rows tracks_rows] in Hin.
    apply filter_In in Hin. destruct Hin as [Hin _].
    apply clip_rows in Hin. destruct Hin as (r0 & Hin & Hfrom).
    rewrite Hrows in Hin. apply Htimed in Hin.
    exists r0. tauto.
  - apply mret_Ok in Hm. destruct Hm as [_ ->].
    split; [reflexivity |]. split; [| reflexivity].
    intros r Hin. cbn [loc_rows] in Hin.
    change (In r (List.filter (fun r => negb (is_empty (adsb_geometry r)))
                    (tracks_rows timed))) in Hin.
    apply filter_In in Hin. destruct Hin as [Hin _].
    apply Htimed in Hin. exists r. unfold comes_from. tauto.
Qed.

(** A reader that raises makes the call raise the same exception. *)
Lemma query_adsb_reader_raises adsb_path start_date end_date mask d flag h year e :
  int_of_string (substring 0 4 start_date) = Ok year ->
  read_files adsb_path (uses_early year flag) = Raise e ->
  query_adsb adsb_path start_date end_date mask d flag h = (h, Raise e).
Proof.
  intros Hy Hr. unfold query_adsb.
  rewrite (bind_run _ _ h h year) by (unfold lift; now rewrite Hy).
  apply bind_Raise. unfold lift. now rewrite Hr.
Qed.

(** C5. The year of the start date selects the format. With a year up to
    2019 and the flag [False] the call reads the files matching [*.txt]
    with [EarlyAdsb]: a failure of that reader is the failure of the call,
    and a result is of the legacy variant and made of rows that reader
    returned. With a later year, or with the flag [True], the same holds
    for [*.TSV] and [Adsb]. (The start date 2019-06-01 has year 2019.) *)
Theorem adsb_format_by_year adsb_path start_date end_date mask d flag h year :
  int_of_string (substring 0 4 start_date) = Ok year ->
  (year <= 2019 /\ flag = Some false ->
   (forall e,
      read_EarlyAdsb (glob_glob (os_path_join adsb_path "*.txt")) = Raise e ->
      query_adsb adsb_path start_date end_date mask d flag h = (h, Raise e))
   /\ (forall h' adsb,
         query_adsb adsb_path start_date end_date mask d flag h = (h', Ok adsb) ->
         tracks_reader adsb = EarlyAdsb
         /\ exists crs rows,
              read_EarlyAdsb (glob_glob (os_path_join adsb_path "*.txt"))
              = Ok (crs, rows)
              /\ forall r, In r (tracks_rows adsb) ->
                   exists r0, In r0 rows /\ comes_from r r0))
  /\ (2019 < year \/ flag = Some true ->
      (forall e,
         read_Adsb (glob_glob (os_path_join adsb_path "*.TSV")) = Raise e ->
         query_adsb adsb_path start_date end_date mask d flag h = (h, Raise e))
      /\ (forall h' adsb,
            query_adsb adsb_path start_date end_date mask d flag h = (h', Ok adsb) ->
            tracks_reader adsb = Adsb
            /\ exists crs rows,
                 read_Adsb (glob_glob (os_path_join adsb_path "*.TSV"))
                 = Ok (crs, rows)
                 /\ forall r, In r (tracks_rows adsb) ->
                      exists r0, In r0 rows /\ comes_from r r0)).
Proof.
  intros Hy.
  assert (Hsel : forall early, uses_early year flag = early ->
            (forall e,
               (if early then read_EarlyAdsb else read_Adsb)
                 (glob_glob (os_path_join adsb_path
                               (if early then "*.txt" else "*.TSV")%string))
               = Raise e ->
               query_adsb adsb_path start_date end_date mask d flag h = (h, Raise e))
            /\ (forall h' adsb,
                  query_adsb adsb_path start_date end_date mask d flag h = (h', Ok adsb) ->
                  tracks_reader adsb = (if early then EarlyAdsb else Adsb)
                  /\ exists crs rows,
                       (if early then read_EarlyAdsb else read_Adsb)
                         (glob_glob (os_path_join adsb_path
                                       (if early then "*.txt" else "*.TSV")%string))
                       = Ok (crs, rows)
                       /\ forall r, In r (tracks_rows adsb) ->
                            exists r0, In r0 rows /\ comes_from r r0)).
  { intros early He. split.
    - intros e Hr. apply (query_adsb_reader_raises _ _ _ _ _ _ _ year e Hy).
      rewrite He. now apply read_files_Raise.
    - intros h' adsb Hq.
      destruct (query_adsb_Ok _ _ _ _ _ _ _ _ _ Hq)
        as (year' & crs & rows & t1 & t2 & Hy' & Hr & _ & _ & Hreader & Hrows & _).
      rewrite Hy in Hy'. injection Hy' as <-.
      rewrite He in *. split; [exact Hreader |].
      destruct (read_files_Ok _ _ _ Hr) as (crs' & rows' & Hread & Heq).
      injection Heq as <- <-.
      exists crs, rows. split; [exact Hread |].
      intros r Hin. destruct (Hrows r Hin) as (r0 & H0 & Hfrom & _). eauto. }
  split.
  - intros [Hle ->]. apply (Hsel true).
    unfold uses_early. cbn [is_False]. rewrite andb_true_r. now apply Z.leb_le.
  - intros Hlate. apply (Hsel false).
    unfold uses_early. destruct Hlate as [Hlt | ->].
    + apply andb_false_iff. left. apply Z.leb_gt. exact Hlt.
    + cbn [is_False]. apply andb_false_r.
Qed.

(** Ordering the rows by time neither loses nor invents a row. *)
Lemma In_insert_by_time (x r : track_row geom) (l : list (track_row geom)) :
  In x (insert_by_time r l) <-> x = r \/ In x l.
Proof.
  induction l as [|y l IH]; cbn [insert_by_time].
  - simpl. intuition congruence.
  - destruct (ak_datetime r <=? ak_datetime y); simpl; [| rewrite IH];
      intuition congruence.
Qed.

Lemma In_order_by_time (x : track_row geom) (l : list (track_row geom)) :
  In x (order_by_time l) <-> In x l.
Proof.
  unfold order_by_time. induction l as [|y l IH]; cbn [fold_right]; [reflexivity |].
  rewrite In_insert_by_time, IH. simpl. intuition congruence.
Qed.

(** C8. [query_adsb] keeps a row only if its [TIME] lies strictly between
    the start date and the end date: every row of a result comes from a
    row that was read with [start < TIME < end], and without a mask the
    result is exactly the rows read that lie strictly inside and have a
    geometry. The database query is different: its condition is [BETWEEN]
    on the date of the point, so a point on the start date or on the end
    date, at any time of the day, is returned. *)
Theorem adsb_date_range_exclusive :
  (forall adsb_path start_date end_date mask d flag h h' adsb,
     query_adsb adsb_path start_date end_date mask d flag h = (h', Ok adsb) ->
     exists t1 t2,
       pd_timestamp start_date = Some t1 /\ pd_timestamp end_date = Some t2
       /\ (forall r, In r (tracks_rows adsb) -> t1 < TIME r < t2)
       /\ (mask = None ->
           exists year crs rows,
             int_of_string (substring 0 4 start_date) = Ok year
             /\ read_files adsb_path (uses_early year flag)
                = Ok (MkTracks (if uses_early year flag then EarlyAdsb else Adsb)
                        crs rows)
             /\ forall r,
                  In r (tracks_rows adsb)
                  <-> In r rows /\ t1 < TIME r < t2
                      /\ is_empty (adsb_geometry r) = false))
  /\ (forall start_date end_date,
        where_text (DateBetween start_date end_date)
        = ("fp.ak_datetime::date BETWEEN '" ++ start_date ++ "' AND '"
             ++ end_date ++ "'")%string)
  /\ (forall engine start_date end_date d h d1 d2 fp f,
        pg_date start_date = Some d1 -> pg_date end_date = Some d2 ->
        In fp (flight_points engine) -> In f (flights engine) ->
        f_id f = fp_flight_id fp ->
        is_empty (fp_geom fp) = false ->
        d1 <= date_of (fp_ak_datetime fp) <= d2 ->
        exists rows,
          query_tracks engine start_date end_date None d h = (h, Ok rows)
          /\ In (select_row fp f) rows).
Proof.
  split; [| split].
  - intros adsb_path start_date end_date mask d flag h h' adsb Hq.
    destruct (query_adsb_Ok _ _ _ _ _ _ _ _ _ Hq)
      as (year & crs & rows & t1 & t2 & Hy & Hr & P1 & P2 & _ & Hrows & Hnomask).
    exists t1, t2. split; [exact P1 |]. split; [exact P2 |]. split.
    + intros r Hin. destruct (Hrows r Hin) as (r0 & _ & [Ht _] & Hin0).
      rewrite Ht. exact Hin0.
    + intros Hm. exists year, crs, rows. split; [exact Hy |]. split; [exact Hr |].
      intros r. rewrite (Hnomask Hm), !filter_In, andb_true_iff, negb_true_iff,
        !Z.ltb_lt. tauto.
  - reflexivity.
  - intros engine start_date end_date d h d1 d2 fp f P1 P2 Hfp Hf Hid Hgeom Hdate.
    unfold query_tracks.
    rewrite (bind_run _ _ h h [DateBetween start_date end_date]) by reflexivity.
    unfold from_postgis. cbn [where_all where_holds]. rewrite P1, P2.
    cbn [mbind result_bind].
    eexists. split; [reflexivity |].
    apply filter_In. split; [| cbn [select_row geometry]; now rewrite Hgeom].
    apply In_order_by_time, in_flat_map. exists fp. split.
    + apply filter_In. split; [exact Hfp |].
      rewrite andb_true_r. apply andb_true_iff. split; apply Z.leb_le; lia.
    + apply in_map, filter_In. split; [exact Hf |]. now apply Z.eqb_eq.
Qed.

End Adsb.

Lemma adsb_format_by_year_witness :
  (@query_adsb demo "/adsb" "2019-06-01" "2019-06-03" None None (Some false) demo_heap
   = (demo_heap,
      Ok (MkTracks EarlyAdsb None
            [ MkAdsbRow (18048 * usec_per_day + 1) [5] [("flight", VStr "N1")];
              MkAdsbRow (18050 * usec_per_day - 1) [700] [("flight", VStr "N2")] ])))
  /\ tracks_reader
       (MkTracks (geom := list Z) EarlyAdsb None
          [ MkAdsbRow (18048 * usec_per_day + 1) [5] [("flight", VStr "N1")];
            MkAdsbRow (18050 * usec_per_day - 1) [700] [("flight", VStr "N2")] ])
     = EarlyAdsb.
Proof.
  assert (Hq : @query_adsb demo "/adsb" "2019-06-01" "2019-06-03" None None
                 (Some false) demo_heap
               = (demo_heap,
                  Ok (MkTracks EarlyAdsb None
                        [ MkAdsbRow (18048 * usec_per_day + 1) [5] [("flight", VStr "N1")];
                          MkAdsbRow (18050 * usec_per_day - 1) [700]
                            [("flight", VStr "N2")] ]))).
  { vm_compute. reflexivity. }
  split; [exact Hq |].
  refine (proj1 (proj2 (proj1 (@adsb_format_by_year demo "/adsb" "2019-06-01"
                                 "2019-06-03" None None (Some false) demo_heap 2019
                                 _) _) _ _ Hq)).
  - vm_compute. reflexivity.
  - split; [lia | reflexivity].
Defined.

Lemma adsb_date_range_exclusive_witness :
  exists t1 t2,
    @pd_timestamp demo "2019-06-01" = Some t1
    /\ @pd_timestamp demo "2019-06-03" = Some t2
    /\ (forall r,
          In r [ MkAdsbRow (18048 * usec_per_day + 1) [5] [("flight", VStr "N1")];
                 MkAdsbRow (18050 * usec_per_day - 1) [700] [("flight", VStr "N2")] ] ->
          t1 < TIME r < t2).
Proof.
  destruct (proj1 (@adsb_date_range_exclusive demo)
              "/adsb" "2019-06-01" "2019-06-03" None None (Some false)
              demo_heap demo_heap
              (MkTracks EarlyAdsb None
                 [ MkAdsbRow (18048 * usec_per_day + 1) [5] [("flight", VStr "N1")];
                   MkAdsbRow (18050 * usec_per_day - 1) [700] [("flight", VStr "N2")] ]))
    as (t1 & t2 & P1 & P2 & Hin & _).
  - vm_compute. reflexivity.
  - exists t1, t2. split; [exact P1 |]. split; [exact P2 | exact Hin].
Defined.

(** * Further properties *)

(** ** More on [get_omni_sources] *)

Lemma map_seq_from {A : Type} (f : nat -> A) (a n : nat) :
  map f (seq a n) = map (fun j => f (a + j)%nat) (seq 0 n).
Proof.
  revert a. induction n as [|n IH]; intros a; [reflexivity |].
  cbn [seq map]. rewrite Nat.add_0_r. f_equal.
  rewrite (IH (S a)), <- seq_shift, map_map.
  apply map_ext. intros j. f_equal. lia.
Qed.

(** The file name of the convention is read back as the tenths it was
    written from. *)
Lemma name_tenths_name (t : Z) :
  -999 <= t <= 999 ->
  name_tenths ("O_" ++ tenths_name t ++ ".src") = Some t.
Proof.
  intros Ht.
  pose (same := fun t : Z =>
     match name_tenths ("O_" ++ tenths_name t ++ ".src") with
     | Some t' => t' =? t
     | None => false
     end).
  assert (H : same t = true).
  { apply (forall_range same (-999) 1999); [vm_compute; reflexivity | lia]. }
  unfold same in H.
  destruct (name_tenths ("O_" ++ tenths_name t ++ ".src")) as [t' |];
    [| discriminate].
  apply Z.eqb_eq in H. now subst.
Qed.

Lemma omni_path_inj (D : string) (t1 t2 : Z) :
  -999 <= t1 <= 999 -> -999 <= t2 <= 999 ->
  omni_path D t1 = omni_path D t2 -> t1 = t2.
Proof.
  intros H1 H2 Heq. unfold omni_path in Heq.
  apply String.app_inj in Heq.
  apply (String.app_inj "\data\tuning") in Heq.
  apply (String.app_inj "\") in Heq.
  apply (f_equal name_tenths) in Heq.
  rewrite !name_tenths_name in Heq by assumption. congruence.
Qed.

(** X1. A range of gains can be cut anywhere: the files for
    [lower .. mid] followed by the files for [mid + 0.5 .. upper] are the
    files for [lower .. upper]. *)
Theorem get_omni_sources_split (D : string) (lower mid upper : Q) :
  valid_bounds lower mid -> valid_bounds (mid + (1 # 2)) upper ->
  exists front back : list string,
    get_omni_sources D lower mid = Ok front
    /\ get_omni_sources D (mid + (1 # 2)) upper = Ok back
    /\ get_omni_sources D lower upper = Ok (front ++ back).
Proof.
  intros (Hlo & Hlm & _ & [kl Hl] & [km Hm]) (_ & Hmu & Hhi & _ & [ku Hu]).
  assert (Hm1 : (mid + (1 # 2) == (km + 1) # 2)%Q).
  { rewrite Hm. unfold Qeq, Qplus. simpl. lia. }
  assert (H1 : -60 <= kl).
  { apply (half_step_bounds lower kl Hl (-30)) in Hlo. lia. }
  assert (H2 : kl <= km) by (apply (half_step_le lower mid kl km Hl Hm); exact Hlm).
  assert (H3 : km + 1 <= ku).
  { apply (half_step_le _ upper (km + 1) ku Hm1 Hu). exact Hmu. }
  assert (H4 : ku <= 100).
  { apply (half_step_bounds upper ku Hu 50) in Hhi. lia. }
  do 2 eexists.
  split; [apply (get_omni_sources_eq D lower mid kl km); try assumption; lia |].
  split; [apply (get_omni_sources_eq D _ upper (km + 1) ku); try assumption; lia |].
  rewrite (get_omni_sources_eq D lower upper kl ku) by (try assumption; lia).
  f_equal.
  replace (Z.to_nat (ku - kl + 1))
    with (Z.to_nat (km - kl + 1) + Z.to_nat (ku - (km + 1) + 1))%nat by lia.
  rewrite seq_app, map_app. f_equal.
  rewrite (map_seq_from _ (0 + Z.to_nat (km - kl + 1))).
  apply map_ext_in. intros j _. f_equal. lia.
Qed.

Lemma get_omni_sources_split_witness :
  exists front back : list string,
    get_omni_sources "C:\nmsim" (-1) 0 = Ok front
    /\ get_omni_sources "C:\nmsim" (0 + (1 # 2)) 1 = Ok back
    /\ get_omni_sources "C:\nmsim" (-1) 1 = Ok (front ++ back).
Proof.
  apply (get_omni_sources_split "C:\nmsim" (-1) 0 1).
  - repeat split; try (unfold Qle; simpl; lia); [exists (-2) | exists 0]; reflexivity.
  - repeat split; try (unfold Qle; simpl; lia); [exists 1 | exists 2]; reflexivity.
Defined.

(** X2. The paths of one call are pairwise distinct, and the name of
    each, read as the docstring reads names, is the gain it stands for:
    the [j]-th file is named after [lower + j * 0.5]. *)
Theorem get_omni_sources_distinct (D : string) (lower upper : Q)
    (paths : list string) :
  get_omni_sources D lower upper = Ok paths ->
  NoDup paths
  /\ forall j : nat, (j < List.length paths)%nat ->
       exists name g,
         nth_error paths j = Some (D ++ "\data\tuning\" ++ name)%string
         /\ name_gain name = Some g
         /\ (g == lower + inject_Z (Z.of_nat j) * (1 # 2))%Q.
Proof.
  intros E.
  destruct (get_omni_sources_Ok_valid D lower upper paths E)
    as (kl & ku & Hl & Hu & H1 & H2 & H3).
  rewrite (get_omni_sources_eq D lower upper kl ku Hl Hu H1 H2 H3) in E.
  injection E as <-. split.
  - apply Finite.Injective_map_NoDup_in; [| apply seq_NoDup].
    intros i j Hi Hj Heq. apply in_seq in Hi, Hj.
    apply omni_path_inj in Heq; lia.
  - rewrite length_map, length_seq. intros j Hj.
    exists ("O_" ++ tenths_name (5 * (kl + Z.of_nat j)) ++ ".src")%string,
           ((5 * (kl + Z.of_nat j)) # 10)%Q.
    split; [| split].
    + rewrite nth_error_map, nth_error_seq.
      destruct (Nat.ltb_spec j (Z.to_nat (ku - kl + 1))); [reflexivity | lia].
    + unfold name_gain. rewrite name_tenths_name by lia. reflexivity.
    + rewrite Hl. unfold Qeq, Qplus, Qmult, inject_Z. simpl. lia.
Qed.

Lemma get_omni_sources_distinct_witness :
  NoDup [ "C:\nmsim\data\tuning\O_-005.src"; "C:\nmsim\data\tuning\O_+000.src" ]%string
  /\ forall j : nat,
       (j < List.length
              [ "C:\nmsim\data\tuning\O_-005.src"; "C:\nmsim\data\tuning\O_+000.src" ]%string)%nat ->
       exists name g,
         nth_error
           [ "C:\nmsim\data\tuning\O_-005.src"; "C:\nmsim\data\tuning\O_+000.src" ]%string j
         = Some ("C:\nmsim" ++ "\data\tuning\" ++ name)%string
         /\ name_gain name = Some g
         /\ (g == - (1 # 2) + inject_Z (Z.of_nat j) * (1 # 2))%Q.
Proof.
  apply (get_omni_sources_distinct "C:\nmsim" (-(1 # 2)) 0).
  vm_compute. reflexivity.
Defined.

(** X3. The order of the three assertions decides the message: bounds
    out of range or out of order give the message about the bounds,
    whatever their alignment; otherwise an upper bound off the 0.5 grid
    gives the message about the upper limit, also when the lower bound is
    off the grid too; only then is the lower bound checked. *)
Theorem get_omni_sources_message (D : string) (lower upper : Q) :
  ((lower < -30 \/ 50 < lower \/ upper < -30 \/ 50 < upper \/ upper < lower)%Q ->
   get_omni_sources D lower upper = Raise (AssertionError bounds_msg))
  /\ ((-30 <= lower)%Q -> (lower <= upper)%Q -> (upper <= 50)%Q ->
      ~ half_step upper ->
      get_omni_sources D lower upper = Raise (AssertionError upper_msg))
  /\ ((-30 <= lower)%Q -> (lower <= upper)%Q -> (upper <= 50)%Q ->
      half_step upper -> ~ half_step lower ->
      get_omni_sources D lower upper = Raise (AssertionError lower_msg)).
Proof.
  assert (Hin : (-30 <= lower)%Q -> (lower <= upper)%Q -> (upper <= 50)%Q ->
                (Qle_bool (-30) upper && Qle_bool upper 50
                 && (Qle_bool (-30) lower && Qle_bool lower 50)
                 && Qle_bool lower upper)%bool = true).
  { intros A B C. rewrite !andb_true_iff, !Qle_bool_iff.
    repeat split; try assumption; eapply Qle_trans; eassumption. }
  split; [| split].
  - intros H. unfold get_omni_sources.
    destruct (Qle_bool (-30) upper && Qle_bool upper 50
              && (Qle_bool (-30) lower && Qle_bool lower 50)
              && Qle_bool lower upper)%bool eqn:Hb; [| reflexivity].
    exfalso. rewrite !andb_true_iff, !Qle_bool_iff in Hb.
    destruct Hb as [[[B1 B2] [B3 B4]] B5].
    destruct H as [H | [H | [H | [H | H]]]]; eapply Qlt_not_le; eassumption.
  - intros A B C Hu. unfold get_omni_sources. rewrite (Hin A B C).
    destruct (Qeq_bool (py_mod upper (1 # 2)) 0) eqn:Hm; [| reflexivity].
    exfalso. apply Hu. exact (py_mod_half_inv _ Hm).
  - intros A B C [ku Hu] Hl. unfold get_omni_sources.
    rewrite (Hin A B C), (py_mod_half upper ku Hu).
    destruct (Qeq_bool (py_mod lower (1 # 2)) 0) eqn:Hm; [| reflexivity].
    exfalso. apply Hl. exact (py_mod_half_inv _ Hm).
Qed.

Lemma get_omni_sources_message_witness :
  get_omni_sources "C:\nmsim" (1 # 3) 60 = Raise (AssertionError bounds_msg)
  /\ get_omni_sources "C:\nmsim" (1 # 3) (2 # 3) = Raise (AssertionError upper_msg)
  /\ get_omni_sources "C:\nmsim" (1 # 3) 1 = Raise (AssertionError lower_msg).
Proof.
  assert (H3 : forall n : Z, ~ half_step (n # 3) \/ (n mod 3 = 0)%Z).
  { intros n. destruct (Z.eq_dec (n mod 3) 0) as [H0 | H0]; [now right | left].
    intros [k Hk]. unfold Qeq in Hk. simpl in Hk.
    apply H0. apply Z.mod_divide; [lia |]. exists (n - k). lia. }
  split; [| split].
  - apply (proj1 (get_omni_sources_message "C:\nmsim" (1 # 3) 60)).
    right. right. right. left. reflexivity.
  - apply (proj1 (proj2 (get_omni_sources_message "C:\nmsim" (1 # 3) (2 # 3))));
      try (unfold Qle; simpl; lia).
    destruct (H3 2) as [H | H]; [exact H | discriminate H].
  - apply (proj2 (proj2 (get_omni_sources_message "C:\nmsim" (1 # 3) 1)));
      try (unfold Qle; simpl; lia).
    + exists 2. reflexivity.
    + destruct (H3 1) as [H | H]; [exact H | discriminate H].
Defined.

(** ** More on [get_deployment] *)

(** X4. A code that was read as a number and has more than three
    characters is left a number by line 54, and a number equals no site
    text: when every row of the unit and year has such a code, the lookup
    fails with an index error for every site, also for the site spelled
    like the number. *)
Theorem get_deployment_long_number {num : Type} (unit site : string) (year : Z)
    (metadata : list (meta_row num)) (elevation : bool) :
  (forall r, In r metadata -> row_unit r = unit -> row_year r = year ->
     exists z, row_code r = CInt z /\ (3 < String.length (str_of_int z))%nat) ->
  get_deployment unit site year metadata elevation = Raise IndexError.
Proof.
  intros Hnum. rewrite get_deployment_find.
  destruct (find _ metadata) as [r |] eqn:F; [| reflexivity].
  apply find_some in F. destruct F as [Hin F]. exfalso.
  unfold row_matches in F. rewrite !andb_true_iff in F.
  destruct F as [[Hu Hc] Hy].
  cbn [normalize_row row_unit row_code row_year] in Hu, Hc, Hy.
  apply String.eqb_eq in Hu. apply Z.eqb_eq in Hy.
  destruct (Hnum r Hin Hu Hy) as (z & Hz & Hlen).
  rewrite Hz in Hc. unfold normalize_code in Hc. cbn [cell_str] in Hc.
  apply Nat.leb_gt in Hlen. rewrite Hlen in Hc. discriminate.
Qed.

Lemma get_deployment_long_number_witness :
  get_deployment "DENA" "1234" 2019
    [MetaRow "DENA" (CInt 1234) 2019 63 (-150) 600 2] true
  = Raise IndexError.
Proof.
  apply get_deployment_long_number.
  intros r [<- | []] _ _. exists 1234. split; [reflexivity |].
  vm_compute. lia.
Defined.

(** X5. A successful lookup is sound: the record returned is read from
    one row of the file whose unit and year are the ones asked for and
    whose code, zero-padded where it has at most three characters, is the
    site text; latitude and longitude are those of that row and the
    vertical value is its elevation or its microphone height. *)
Theorem get_deployment_sound {num : Type} (unit site : string) (year : Z)
    (metadata : list (meta_row num)) (elevation : bool) (mic : Microphone num) :
  get_deployment unit site year metadata elevation = Ok mic ->
  exists r,
    In r metadata
    /\ row_unit r = unit /\ row_year r = year
    /\ normalize_code (row_code r) = CStr site
    /\ mic_lat mic = row_lat r /\ mic_lon mic = row_long r
    /\ mic_z mic = (if elevation then row_elevation r else row_microphone_height r)
    /\ mic_name mic = (unit ++ site ++ str_of_int year)%string.
Proof.
  rewrite get_deployment_find.
  destruct (find _ metadata) as [r |] eqn:F; [| discriminate].
  intros [= <-]. apply find_some in F. destruct F as [Hin F].
  unfold row_matches in F. rewrite !andb_true_iff in F.
  destruct F as [[Hu Hc] Hy].
  cbn [normalize_row row_unit row_code row_year] in Hu, Hc, Hy.
  apply String.eqb_eq in Hu. apply Z.eqb_eq in Hy.
  exists r. repeat split; try assumption.
  destruct (normalize_code (row_code r)) as [z | s]; [discriminate |].
  cbn [cell_eq_str] in Hc. apply String.eqb_eq in Hc. now subst.
Qed.

Lemma get_deployment_sound_witness :
  exists r,
    In r demo_metadata
    /\ row_unit r = "DENA"%string /\ row_year r = 2019
    /\ normalize_code (row_code r) = CStr "TRLA"
    /\ 64 = row_lat r /\ -151 = row_long r
    /\ 3 = row_microphone_height r
    /\ "DENATRLA2019"%string = ("DENA" ++ "TRLA" ++ str_of_int 2019)%string.
Proof.
  apply (get_deployment_sound "DENA" "TRLA" 2019 demo_metadata false
           (MkMicrophone 64 (-151) 3 "DENATRLA2019")).
  reflexivity.
Defined.

(** X6. The flag [elevation] plays no part in the selection: with the
    flag true and with the flag false the lookup fails alike, or returns
    records with the same latitude, longitude and name, whose vertical
    values are the elevation and the microphone height of one and the
    same row. *)
Theorem get_deployment_flag {num : Type} (unit site : string) (year : Z)
    (metadata : list (meta_row num)) :
  (get_deployment unit site year metadata true = Raise IndexError
   /\ get_deployment unit site year metadata false = Raise IndexError)
  \/ (exists r,
        In r metadata
        /\ get_deployment unit site year metadata true
           = Ok (MkMicrophone (row_lat r) (row_long r) (row_elevation r)
                   (unit ++ site ++ str_of_int year)%string)
        /\ get_deployment unit site year metadata false
           = Ok (MkMicrophone (row_lat r) (row_long r) (row_microphone_height r)
                   (unit ++ site ++ str_of_int year)%string)).
Proof.
  rewrite !get_deployment_find.
  destruct (find _ metadata) as [r |] eqn:F.
  - right. exists r. apply find_some in F. tauto.
  - left. split; reflexivity.
Qed.

(** ** More on [query_tracks] *)

Section TracksMore.
Context {E : Externals}.

Lemma insert_by_time_ordered (r : track_row geom) (l : list (track_row geom)) :
  time_ordered l -> time_ordered (insert_by_time r l).
Proof.
  unfold time_ordered. induction l as [|x l IH]; intros Hs; cbn [insert_by_time].
  - constructor; constructor.
  - apply StronglySorted_inv in Hs. destruct Hs as [Hl Hx].
    destruct (Z.leb_spec (ak_datetime r) (ak_datetime x)) as [Hle | Hgt].
    + constructor; [constructor; assumption |].
      constructor; [exact Hle |].
      eapply Forall_impl; [| exact Hx]. intros a Ha. cbn in *. lia.
    + constructor; [apply IH; exact Hl |].
      apply Forall_forall. intros a Ha.
      apply In_insert_by_time in Ha. destruct Ha as [-> | Ha]; [lia |].
      rewrite Forall_forall in Hx. now apply Hx.
Qed.

Lemma order_by_time_ordered (l : list (track_row geom)) :
  time_ordered (order_by_time l).
Proof.
  unfold order_by_time. induction l as [|x l IH]; cbn [fold_right].
  - constructor.
  - now apply insert_by_time_ordered.
Qed.

Lemma filter_time_ordered (keep : track_row geom -> bool) (l : list (track_row geom)) :
  time_ordered l -> time_ordered (List.filter keep l).
Proof.
  unfold time_ordered. induction 1 as [|x l Hl IH Hx]; cbn [List.filter].
  - constructor.
  - destruct (keep x); [| exact IH].
    constructor; [exact IH |].
    apply Forall_forall. intros a Ha. apply filter_In in Ha.
    rewrite Forall_forall in Hx. now apply Hx.
Qed.

(** What the database returns for a list of conditions. *)
Lemma from_postgis_rows (engine : Engine geom) (wheres : list where_clause)
    (p : flight_point geom -> bool) :
  where_all wheres = Ok p ->
  exists rows,
    from_postgis engine wheres = Ok rows
    /\ time_ordered rows
    /\ forall r, In r rows <-> joined_row engine p r.
Proof.
  intros Hp. unfold from_postgis. rewrite Hp. cbn [mbind result_bind].
  eexists. split; [reflexivity |]. split; [apply order_by_time_ordered |].
  intros r. rewrite In_order_by_time, in_flat_map. unfold joined_row. split.
  - intros (fp & Hfp & Hr). apply filter_In in Hfp. destruct Hfp as [Hfp Hpfp].
    apply in_map_iff in Hr. destruct Hr as (f & <- & Hf).
    apply filter_In in Hf. destruct Hf as [Hf Hid]. apply Z.eqb_eq in Hid.
    exists fp, f. tauto.
  - intros (fp & f & Hfp & Hf & Hid & Hpfp & ->).
    exists fp. split; [apply filter_In; tauto |].
    apply in_map, filter_In. split; [exact Hf | now apply Z.eqb_eq].
Qed.

Lemma from_postgis_Ok (engine : Engine geom) (wheres : list where_clause)
    (rows : list (track_row geom)) :
  from_postgis engine wheres = Ok rows ->
  exists p,
    where_all wheres = Ok p
    /\ time_ordered rows
    /\ forall r, In r rows <-> joined_row engine p r.
Proof.
  intros Hq. destruct (where_all wheres) as [p | e] eqn:Hp.
  - destruct (from_postgis_rows engine wheres p Hp) as (rows' & Hq' & Hs & Hin).
    rewrite Hq in Hq'. injection Hq' as <-. eauto.
  - unfold from_postgis in Hq. rewrite Hp in Hq. discriminate.
Qed.

(** X7. Without a mask [query_tracks] returns the full date-filtered
    range and leaves the heap alone: a row is returned exactly when it is
    the row of a point and its flight, the date of the point lies between
    the start date and the end date, both included, and the geometry of
    the point is not empty. *)
Theorem query_tracks_unmasked engine start_date end_date d h d1 d2 :
  pg_date start_date = Some d1 -> pg_date end_date = Some d2 ->
  exists rows,
    query_tracks engine start_date end_date None d h = (h, Ok rows)
    /\ forall r,
         In r rows
         <-> exists fp f,
               In fp (flight_points engine) /\ In f (flights engine)
               /\ f_id f = fp_flight_id fp
               /\ d1 <= date_of (fp_ak_datetime fp) <= d2
               /\ is_empty (fp_geom fp) = false
               /\ r = select_row fp f.
Proof.
  intros P1 P2.
  destruct (from_postgis_rows engine [DateBetween start_date end_date]
              (fun fp => (d1 <=? date_of (fp_ak_datetime fp))
                         && (date_of (fp_ak_datetime fp) <=? d2) && true))
    as (tracks & Hq & _ & Hin).
  { cbn [where_all where_holds]. now rewrite P1, P2. }
  unfold query_tracks.
  rewrite (bind_run _ _ h h [DateBetween start_date end_date]) by reflexivity.
  rewrite (bind_run _ _ h h tracks) by (unfold lift; now rewrite Hq).
  eexists. split; [reflexivity |].
  intros r. rewrite filter_In, Hin, negb_true_iff. unfold joined_row. split.
  - intros [(fp & f & Hfp & Hf & Hid & Hp & ->) Hne].
    rewrite andb_true_r, andb_true_iff, !Z.leb_le in Hp.
    exists fp, f. cbn [select_row geometry] in Hne. tauto.
  - intros (fp & f & Hfp & Hf & Hid & Hdate & Hne & ->). split.
    + exists fp, f. rewrite andb_true_r, andb_true_iff, !Z.leb_le. tauto.
    + exact Hne.
Qed.

(** X8. The rows [query_tracks] returns are in ascending order of
    [ak_datetime]: the order of the query survives the removal of the
    empty geometries. *)
Theorem query_tracks_ordered engine start_date end_date mask d h h' rows :
  query_tracks engine start_date end_date mask d h = (h', Ok rows) ->
  time_ordered rows.
Proof.
  intros Hq. unfold query_tracks in Hq.
  apply bind_Ok in Hq. destruct Hq as (h1 & wheres & _ & Hq).
  apply bind_Ok in Hq. destruct Hq as (h2 & tracks & Ht & Hq).
  apply lift_Ok in Ht. destruct Ht as [_ Ht].
  apply mret_Ok in Hq. destruct Hq as [_ ->].
  apply filter_time_ordered.
  destruct (from_postgis_Ok engine wheres tracks Ht) as (p & _ & Hs & _).
  exact Hs.
Qed.

End TracksMore.

Lemma query_tracks_unmasked_witness :
  exists rows,
    @query_tracks demo demo_engine "2019-06-01" "2019-06-02" None None demo_heap
    = (demo_heap, Ok rows)
    /\ forall r,
         In r rows
         <-> exists fp f,
               In fp (flight_points demo_engine) /\ In f (flights demo_engine)
               /\ f_id f = fp_flight_id fp
               /\ 18048 <= date_of (fp_ak_datetime fp) <= 18049
               /\ line_is_empty (fp_geom fp) = false
               /\ r = select_row fp f.
Proof.
  apply (@query_tracks_unmasked demo demo_engine "2019-06-01" "2019-06-02" None
           demo_heap 18048 18049); reflexivity.
Defined.

Lemma query_tracks_ordered_witness :
  time_ordered
    [ MkTrackRow (geom := list Z) "N1" (2000 * (3048 # 10000))%Q
        (18048 * usec_per_day) [5] (18048 * usec_per_day);
      MkTrackRow "N1" (1000 * (3048 # 10000))%Q (18049 * usec_per_day + 5) [6]
        (18049 * usec_per_day) ].
Proof.
  apply (@query_tracks_ordered demo demo_engine "2019-06-01" "2019-06-02" None None
           demo_heap demo_heap).
  vm_compute. reflexivity.
Defined.

(** ** The mask the queries filter with *)

Section MaskUsed.
Context {E : Externals}.

Lemma not_4326_false (c : CRS) :
  not_4326 (to_epsg c) = false -> c = EPSG 4326.
Proof.
  destruct c as [code | s]; cbn; [| discriminate].
  intros H. apply negb_false_iff, Z.eqb_eq in H. now subst.
Qed.

Lemma crs_eqb_eq (c d : CRS) : crs_eqb c d = true -> c = d.
Proof.
  destruct c, d; cbn; try discriminate.
  - intros H. apply Z.eqb_eq in H. now subst.
  - intros H. apply String.eqb_eq in H. now subst.
Qed.

Ltac run_mask :=
  repeat first
    [ progress cbn [fst snd set_dissolve_field set_geometry gdf_crs gdf_columns
                    gdf_geometry buffered_geometry]
    | rewrite lookup_insert_eq
    | rewrite length_map ].

(** The call with a mask, run up to the query. *)
Lemma query_tracks_masked_run engine start_date end_date d
    (h : gmap loc (GeoDataFrame geom)) (l : loc) (m : GeoDataFrame geom) (c : CRS) :
  h !! l = Some m -> gdf_crs m = Some c ->
  exists h2,
    query_tracks engine start_date end_date (Some l) d h
    = (h2,
       mask_wkt ← dissolve_squeeze_wkt (tracks_prepared_mask d m);
       flight_tracks ←
         from_postgis engine
           [DateBetween start_date end_date; MaskIntersects mask_wkt];
       Ok (List.filter (fun r => negb (is_empty (geometry r))) flight_tracks)).
Proof.
  intros Hl Hc.
  unfold query_tracks, tracks_prepared_mask, mask_geometry_used, mask_in_wgs84,
    mbind, M_bind, mret, M_ret, load, store, alloc, lift, frame_epsg, to_crs,
    result_bind, set_geometry, set_dissolve_field, buffered_geometry.
  rewrite Hl, Hc.
  destruct (not_4326 (to_epsg c)) eqn:H4.
  - run_mask. destruct (truthy d); run_mask;
      (destruct (dissolve_squeeze_wkt _) as [wkt |]; [| eauto]);
      cbn [app]; destruct (from_postgis _ _); eauto.
  - apply not_4326_false in H4. subst c. rewrite Hl. run_mask.
    destruct (truthy d); run_mask; rewrite ?Hc; run_mask;
      (destruct (dissolve_squeeze_wkt _) as [wkt |]; [| eauto]);
      cbn [app]; destruct (from_postgis _ _); eauto.
Qed.

(** A mask without a reference system stops
    [query_tracks] with [AttributeError] before anything is changed. *)
Lemma query_tracks_no_crs engine start_date end_date d
    (h : gmap loc (GeoDataFrame geom)) (l : loc) (m : GeoDataFrame geom) :
  h !! l = Some m -> gdf_crs m = None ->
  query_tracks engine start_date end_date (Some l) d h = (h, Raise AttributeError).
Proof.
  intros Hl Hc.
  unfold query_tracks, mbind, M_bind, load, lift, frame_epsg.
  now rewrite Hl, Hc.
Qed.

(** X9. With a mask, [query_tracks] returns only rows whose geometry
    intersects the mask text it sent, and that text is the dissolved mask
    in EPSG:4326: reprojected if the mask came in another reference
    system, and with a buffer distance taken to EPSG:3338, buffered by the
    distance and taken back. *)
Theorem query_tracks_masked engine start_date end_date d
    (h h' : gmap loc (GeoDataFrame geom)) (l : loc) (m : GeoDataFrame geom)
    (rows : list (track_row geom)) :
  h !! l = Some m ->
  query_tracks engine start_date end_date (Some l) d h = (h', Ok rows) ->
  exists mask_wkt,
    dissolve_squeeze_wkt (tracks_prepared_mask d m) = Ok mask_wkt
    /\ forall r, In r rows ->
         ST_Intersects (geometry r) mask_wkt = true
         /\ is_empty (geometry r) = false.
Proof.
  intros Hl Hq.
  destruct (gdf_crs m) as [c |] eqn:Hc.
  2: { rewrite (query_tracks_no_crs _ _ _ _ h l m Hl Hc) in Hq. discriminate. }
  destruct (query_tracks_masked_run engine start_date end_date d h l m c Hl Hc)
    as (h2 & Hrun).
  rewrite Hrun in Hq. injection Hq as _ Hq.
  destruct (dissolve_squeeze_wkt (tracks_prepared_mask d m)) as [wkt |];
    [| discriminate].
  cbn [mbind result_bind] in Hq.
  destruct (from_postgis engine _) as [tracks |] eqn:Ht; [| discriminate].
  cbn [mbind result_bind] in Hq. injection Hq as <-.
  exists wkt. split; [reflexivity |].
  intros r Hr. apply filter_In in Hr. destruct Hr as [Hr Hne].
  apply negb_true_iff in Hne. split; [| exact Hne].
  destruct (from_postgis_Ok engine _ tracks Ht) as (p & Hp & _ & Hin).
  apply Hin in Hr. destruct Hr as (fp & f & _ & _ & _ & Hpfp & ->).
  cbn [where_all where_holds] in Hp.
  destruct (pg_date start_date), (pg_date end_date); try discriminate.
  cbn [mbind result_bind] in Hp. injection Hp as <-.
  rewrite !andb_true_iff in Hpfp. cbn [select_row geometry]. tauto.
Qed.

(** The call of [query_adsb] with a mask, run from the mask on. *)
Lemma query_adsb_masked_run adsb_path start_date end_date d flag
    (h : gmap loc (GeoDataFrame geom)) (l : loc) (m : GeoDataFrame geom) (c : CRS)
    year adsb0 t1 t2 :
  int_of_string (substring 0 4 start_date) = Ok year ->
  read_files adsb_path (uses_early year flag) = Ok adsb0 ->
  pd_timestamp start_date = Some t1 -> pd_timestamp end_date = Some t2 ->
  h !! l = Some m -> gdf_crs m = Some c ->
  exists h2,
    query_adsb adsb_path start_date end_date (Some l) d flag h
    = (h2,
       adsb ← set_crs 4326
                (loc_rows (fun r => (t1 <? TIME r) && (TIME r <? t2)) adsb0);
       Ok (loc_rows (fun r => negb (is_empty (adsb_geometry r)))
             (clip adsb (adsb_prepared_mask d m)))).
Proof.
  intros Hy Hr P1 P2 Hl Hc.
  unfold query_adsb, adsb_prepared_mask, mask_geometry_used, mask_in_wgs84,
    timestamp, mbind, M_bind, mret, M_ret, load, store, alloc, lift, frame_epsg,
    to_crs, result_bind, set_geometry, buffered_geometry.
  rewrite Hy, Hr, P1, P2, Hl, Hc.
  destruct (not_4326 (to_epsg c)) eqn:H4.
  - run_mask. destruct (truthy d); run_mask;
      destruct (set_crs 4326 _); run_mask; eauto.
  - apply not_4326_false in H4. subst c.
    destruct (truthy d); rewrite ?Hl; run_mask; rewrite ?Hc; run_mask;
      destruct (set_crs 4326 _); rewrite ?Hl; run_mask; eauto.
Qed.

(** X10. With a mask, a result of [query_adsb] is in EPSG:4326 and each
    of its rows is a row that was read, with its geometry cut to the mask
    geometry (reprojected and buffered as for [query_tracks]); without a
    mask the result keeps the reference system the reader gave, which for
    file data is none. *)
Theorem query_adsb_masked adsb_path start_date end_date d flag
    (h h' : gmap loc (GeoDataFrame geom)) (adsb : Tracks geom) :
  (forall l m,
     h !! l = Some m ->
     query_adsb adsb_path start_date end_date (Some l) d flag h = (h', Ok adsb) ->
     tracks_crs adsb = Some (EPSG 4326)
     /\ exists year crs rows,
          int_of_string (substring 0 4 start_date) = Ok year
          /\ read_files adsb_path (uses_early year flag)
             = Ok (MkTracks (if uses_early year flag then EarlyAdsb else Adsb)
                     crs rows)
          /\ forall r, In r (tracks_rows adsb) ->
               exists r0,
                 In r0 rows /\ comes_from r r0
                 /\ clip_geom (mask_geometry_used d m) (adsb_geometry r0)
                    = Some (adsb_geometry r))
  /\ (query_adsb adsb_path start_date end_date None d flag h = (h', Ok adsb) ->
      exists year rows,
        int_of_string (substring 0 4 start_date) = Ok year
        /\ read_files adsb_path (uses_early year flag)
           = Ok (MkTracks (if uses_early year flag then EarlyAdsb else Adsb)
                   (tracks_crs adsb) rows)).
Proof.
  split.
  - intros l m Hl Hq.
    destruct (query_adsb_Ok _ _ _ _ _ _ _ _ _ Hq)
      as (year & crs & rows & t1 & t2 & Hy & Hr & P1 & P2 & _ & _ & _).
    destruct (gdf_crs m) as [c |] eqn:Hc.
    2: { exfalso. revert Hq.
         unfold query_adsb, timestamp, mbind, M_bind, load, lift, frame_epsg.
         rewrite Hy, Hr, P1, P2, Hl, Hc. discriminate. }
    destruct (query_adsb_masked_run adsb_path start_date end_date d flag h l m c
                year _ t1 t2 Hy Hr P1 P2 Hl Hc) as (h2 & Hrun).
    rewrite Hrun in Hq. injection Hq as _ Hq.
    destruct (set_crs 4326 _) as [adsb1 |] eqn:Hs; [| discriminate].
    cbn [mbind result_bind] in Hq. injection Hq as <-.
    assert (Hcrs : tracks_crs adsb1 = Some (EPSG 4326)
                   /\ tracks_rows adsb1
                      = List.filter (fun r => (t1 <? TIME r) && (TIME r <? t2)) rows).
    { revert Hs. unfold set_crs, loc_rows. cbn [tracks_crs tracks_rows tracks_reader].
      destruct crs as [c' |].
      - destruct (crs_eqb c' (EPSG 4326)) eqn:Heq; [| discriminate].
        apply crs_eqb_eq in Heq. subst c'. now intros [= <-].
      - now intros [= <-]. }
    destruct Hcrs as [Hcrs Hrows].
    split; [exact Hcrs |].
    exists year, crs, rows. split; [exact Hy |]. split; [exact Hr |].
    intros r Hin. cbn [loc_rows clip tracks_rows] in Hin.
    apply filter_In in Hin. destruct Hin as [Hin _].
    rewrite <- list_elem_of_In, list_elem_of_omap in Hin.
    destruct Hin as (r0 & Hr0 & Hcut).
    apply list_elem_of_In in Hr0. rewrite Hrows in Hr0.
    apply filter_In in Hr0. destruct Hr0 as [Hr0 _].
    cbn [adsb_prepared_mask gdf_geometry] in Hcut.
    destruct (clip_geom (mask_geometry_used d m) (adsb_geometry r0)) as [g |] eqn:Hg;
      [| discriminate].
    cbn in Hcut. injection Hcut as <-.
    exists r0. split; [exact Hr0 |]. split; [split; reflexivity | exact Hg].
  - intros Hq. unfold query_adsb in Hq.
    apply bind_Ok in Hq. destruct Hq as (h1 & year & Hy & Hq).
    apply lift_Ok in Hy. destruct Hy as [-> Hy].
    apply bind_Ok in Hq. destruct Hq as (h2 & adsb0 & Hr & Hq).
    apply lift_Ok in Hr. destruct Hr as [-> Hr].
    apply bind_Ok in Hq. destruct Hq as (h3 & t1 & _ & Hq).
    apply bind_Ok in Hq. destruct Hq as (h4 & t2 & _ & Hq).
    apply bind_Ok in Hq. destruct Hq as (h5 & adsb1 & Hm & Hq).
    apply mret_Ok in Hm. destruct Hm as [_ ->].
    apply mret_Ok in Hq. destruct Hq as [_ ->].
    destruct (read_files_Ok _ _ _ Hr) as (crs & rows & _ & ->).
    exists year, rows. split; [exact Hy | exact Hr].
Qed.

(** X11. A mask without a reference system stops both queries with
    [AttributeError] before the mask or anything else in the heap is
    changed; [query_adsb] has read its files and compared the dates by
    then. *)
Theorem mask_without_crs engine adsb_path start_date end_date d flag
    (h : gmap loc (GeoDataFrame geom)) (l : loc) (m : GeoDataFrame geom) :
  h !! l = Some m -> gdf_crs m = None ->
  query_tracks engine start_date end_date (Some l) d h = (h, Raise AttributeError)
  /\ (forall year adsb0 t1 t2,
        int_of_string (substring 0 4 start_date) = Ok year ->
        read_files adsb_path (uses_early year flag) = Ok adsb0 ->
        pd_timestamp start_date = Some t1 -> pd_timestamp end_date = Some t2 ->
        query_adsb adsb_path start_date end_date (Some l) d flag h
        = (h, Raise AttributeError)).
Proof.
  intros Hl Hc. split; [exact (query_tracks_no_crs _ _ _ _ h l m Hl Hc) |].
  intros year adsb0 t1 t2 Hy Hr P1 P2.
  unfold query_adsb, timestamp, mbind, M_bind, load, lift, frame_epsg.
  now rewrite Hy, Hr, P1, P2, Hl, Hc.
Qed.

(** X12. A flag of [None] is not [False]: the call then reads the
    current format whatever the year, exactly as with the flag [True]. *)
Theorem flag_None_is_True adsb_path start_date end_date mask d
    (h : gmap loc (GeoDataFrame geom)) :
  query_adsb adsb_path start_date end_date mask d None h
  = query_adsb adsb_path start_date end_date mask d (Some true) h
  /\ forall h' adsb,
       query_adsb adsb_path start_date end_date mask d None h = (h', Ok adsb) ->
       tracks_reader adsb = Adsb.
Proof.
  assert (Hu : forall year, uses_early year None = false
                            /\ uses_early year (Some true) = false).
  { intros year. unfold uses_early. cbn [is_False]. now rewrite andb_false_r. }
  split.
  - unfold query_adsb, mbind, M_bind, lift.
    destruct (int_of_string (substring 0 4 start_date)) as [year |]; [| reflexivity].
    destruct (Hu year) as [-> ->]. reflexivity.
  - intros h' adsb Hq.
    destruct (query_adsb_Ok _ _ _ _ _ _ _ _ _ Hq)
      as (year & _ & _ & _ & _ & _ & _ & _ & _ & Hreader & _).
    destruct (Hu year) as [Hn _]. now rewrite Hn in Hreader.
Qed.

End MaskUsed.

Lemma query_tracks_masked_witness :
  exists mask_wkt,
    @dissolve_squeeze_wkt demo
      (@tracks_prepared_mask demo (Some 100) demo_albers_mask) = Ok mask_wkt
    /\ forall r,
         In r [ MkTrackRow (geom := list Z) "N1" (2000 * (3048 # 10000))%Q
                  (18048 * usec_per_day) [5] (18048 * usec_per_day);
                MkTrackRow "N1" (1000 * (3048 # 10000))%Q (18049 * usec_per_day + 5)
                  [6] (18049 * usec_per_day) ] ->
         @ST_Intersects demo (geometry r) mask_wkt = true
         /\ @is_empty demo (geometry r) = false.
Proof.
  apply (@query_tracks_masked demo demo_engine "2019-06-01" "2019-06-02" (Some 100)
           demo_heap
           (@query_tracks demo demo_engine "2019-06-01" "2019-06-02"
              (Some 2%positive) (Some 100) demo_heap).1
           2%positive demo_albers_mask).
  - vm_compute. reflexivity.
  - vm_compute. reflexivity.
Defined.

Lemma query_adsb_masked_witness :
  tracks_crs
    (MkTracks (geom := list Z) EarlyAdsb (Some (EPSG 4326))
       [ MkAdsbRow (18048 * usec_per_day + 1) [5] [("flight", VStr "N1")] ])
  = Some (EPSG 4326)
  /\ exists year crs rows,
       int_of_string (substring 0 4 "2019-06-01") = Ok year
       /\ @read_files demo "/adsb" (uses_early year (Some false))
          = Ok (MkTracks (if uses_early year (Some false) then EarlyAdsb else Adsb)
                  crs rows)
       /\ forall r,
            In r [ MkAdsbRow (18048 * usec_per_day + 1) [5] [("flight", VStr "N1")] ] ->
            exists r0,
              In r0 rows /\ comes_from r r0
              /\ @clip_geom demo (@mask_geometry_used demo (Some 3) demo_albers_mask)
                   (adsb_geometry r0)
                 = Some (adsb_geometry r).
Proof.
  apply (proj1 (@query_adsb_masked demo "/adsb" "2019-06-01" "2019-06-03" (Some 3)
                  (Some false) demo_heap
                  (@query_adsb demo "/adsb" "2019-06-01" "2019-06-03"
                     (Some 2%positive) (Some 3) (Some false) demo_heap).1
                  (MkTracks EarlyAdsb (Some (EPSG 4326))
                     [ MkAdsbRow (18048 * usec_per_day + 1) [5]
                         [("flight", VStr "N1")] ]))
           2%positive demo_albers_mask).
  - vm_compute. reflexivity.
  - vm_compute. reflexivity.
Defined.

Lemma mask_without_crs_witness :
  @query_tracks demo demo_engine "2019-06-01" "2019-06-02" (Some 1%positive) (Some 100)
    (<[1%positive := MkFrame None [] [[5; 6]]]> ∅)
  = (<[1%positive := MkFrame None [] [[5; 6]]]> ∅, Raise AttributeError)
  /\ @query_adsb demo "/adsb" "2019-06-01" "2019-06-03" (Some 1%positive) (Some 100)
       (Some false) (<[1%positive := MkFrame None [] [[5; 6]]]> ∅)
     = (<[1%positive := MkFrame None [] [[5; 6]]]> ∅, Raise AttributeError).
Proof.
  destruct (@mask_without_crs demo demo_engine "/adsb" "2019-06-01" "2019-06-03"
              (Some 100) (Some false) (<[1%positive := MkFrame None [] [[5; 6]]]> ∅)
              1%positive (MkFrame None [] [[5; 6]]))
    as [Ht Ha].
  - vm_compute. reflexivity.
  - reflexivity.
  - split; [exact Ht |].
    apply (Ha 2019 (MkTracks EarlyAdsb None demo_early_rows)
              (18048 * usec_per_day) (18050 * usec_per_day)); vm_compute; reflexivity.
Defined.

Lemma flag_None_is_True_witness :
  tracks_reader (MkTracks (geom := list Z) Adsb None []) = Adsb.
Proof.
  apply (proj2 (@flag_None_is_True demo "/adsb" "2019-06-01" "2019-06-03" None None
                  demo_heap) demo_heap).
  vm_compute. reflexivity.
Defined.

(** ** [get_logger] *)

Lemma get_logger_valid (name level : string) (lv : Z) (loggers : gmap string Logger) :
  level_of_name level = Some lv ->
  get_logger name level loggers
  = (<[logger_key name :=
         MkLogger lv (logger_handlers (registered loggers name)
                        ++ [MkHandler TqdmStream log_format])]> loggers,
     Ok (logger_key name)).
Proof.
  intros Hlv. unfold get_logger, getLogger, registered. rewrite Hlv.
  destruct (loggers !! logger_key name) as [logger |] eqn:Hl; cbn [default].
  - reflexivity.
  - now rewrite insert_insert_eq.
Qed.

(** X13. Handlers pile up: [k] calls of [get_logger] with one name and
    valid levels leave the logger with [k] more handlers than it had, all
    writing to the tqdm stream with the same format, none of the earlier
    ones removed; the level is that of the last call, and no other logger
    is touched. *)
Theorem get_logger_accumulates (name : string) (levels : list string)
    (loggers : gmap string Logger) :
  Forall (fun level => is_Some (level_of_name level)) levels ->
  logger_handlers (registered (get_logger_each name levels loggers) name)
  = logger_handlers (registered loggers name)
    ++ repeat (MkHandler TqdmStream log_format) (List.length levels)
  /\ (forall earlier level lv,
        levels = earlier ++ [level] -> level_of_name level = Some lv ->
        logger_level (registered (get_logger_each name levels loggers) name) = lv)
  /\ (forall other, logger_key other <> logger_key name ->
        get_logger_each name levels loggers !! logger_key other
        = loggers !! logger_key other).
Proof.
  intros Hvalid. revert loggers.
  induction Hvalid as [|level rest [lv Hlv] Hrest IH]; intros loggers.
  - cbn [get_logger_each List.length repeat]. rewrite app_nil_r.
    split; [reflexivity |]. split; [| reflexivity].
    intros [|x earlier] level lv; discriminate.
  - cbn [get_logger_each]. rewrite (get_logger_valid name level lv loggers Hlv).
    cbn [fst].
    set (loggers1 := <[logger_key name := _]> loggers).
    assert (H1 : registered loggers1 name
                 = MkLogger lv (logger_handlers (registered loggers name)
                                  ++ [MkHandler TqdmStream log_format])).
    { unfold registered, loggers1. now rewrite lookup_insert_eq. }
    destruct (IH loggers1) as (IHh & IHl & IHo).
    split; [| split].
    + rewrite IHh, H1. cbn [logger_handlers List.length repeat].
      now rewrite <- app_assoc.
    + intros earlier level0 lv0 Heq Hlv0. destruct earlier as [|x earlier].
      * cbn [app] in Heq. injection Heq as -> ->. cbn [get_logger_each]. rewrite H1.
        cbn [logger_level]. congruence.
      * cbn [app] in Heq. injection Heq as _ ->. now apply (IHl earlier level0 lv0).
    + intros other Hne. rewrite (IHo other Hne).
      unfold loggers1. now apply lookup_insert_ne.
Qed.

Lemma get_logger_accumulates_witness :
  logger_handlers (registered (get_logger_each "nmsim" ["INFO"; "DEBUG"]%string ∅) "nmsim")
  = logger_handlers (registered ∅ "nmsim")
    ++ repeat (MkHandler TqdmStream log_format) 2.
Proof.
  apply (get_logger_accumulates "nmsim" ["INFO"; "DEBUG"]%string ∅).
  repeat constructor; eexists; reflexivity.
Defined.

(** X14. A level that [logging] does not know by name, for instance a
    name in lower case, makes [get_logger] raise [ValueError]; by then the
    logger has been made and registered, but it has got no handler and its
    level is as before. *)
Theorem get_logger_unknown_level (name level : string)
    (loggers : gmap string Logger) :
  level_of_name level = None ->
  exists loggers',
    get_logger name level loggers = (loggers', Raise ValueError)
    /\ loggers' !! logger_key name = Some (registered loggers name)
    /\ (forall other, logger_key other <> logger_key name ->
          loggers' !! logger_key other = loggers !! logger_key other).
Proof.
  intros Hlv. unfold get_logger, getLogger, registered. rewrite Hlv.
  destruct (loggers !! logger_key name) as [logger |] eqn:Hl; cbn [default].
  - exists loggers. split; [reflexivity |]. split; [exact Hl | reflexivity].
  - eexists. split; [reflexivity |]. split; [apply lookup_insert_eq |].
    intros other Hne. now apply lookup_insert_ne.
Qed.

Lemma get_logger_unknown_level_witness :
  exists loggers',
    get_logger "nmsim" "info" ∅ = (loggers', Raise ValueError)
    /\ loggers' !! logger_key "nmsim" = Some (registered ∅ "nmsim")
    /\ (forall other, logger_key other <> logger_key "nmsim" ->
          loggers' !! logger_key other = (∅ : gmap string Logger) !! logger_key other).
Proof.
  apply (get_logger_unknown_level "nmsim" "info" ∅). reflexivity.
Defined.

(** ** The rest of the heap *)

Lemma reprojected_mask_untouched_witness :
  (@query_tracks demo demo_engine "2019-06-01" "2019-06-02" (Some 2%positive)
     (Some 100) demo_heap).1 !! 2%positive = Some demo_albers_mask
  /\ (@query_adsb demo "/adsb" "2019-06-01" "2019-06-03" (Some 2%positive)
        (Some 100) (Some false) demo_heap).1 !! 2%positive = Some demo_albers_mask.
Proof.
  apply (@reprojected_mask_untouched demo demo_engine "/adsb" "2019-06-01" "2019-06-03"
           (Some 100) (Some false) demo_heap 2%positive demo_albers_mask (EPSG 3338)).
  - vm_compute. reflexivity.
  - reflexivity.
  - discriminate.
Defined.

(** X16. Neither query touches an object of the heap that is not the
    mask it was given: whatever the call does, and whether it returns or
    raises, every other frame is afterwards what it was. *)
Theorem queries_touch_only_mask {E : Externals} engine adsb_path start_date end_date
    mask d flag (h : gmap loc (GeoDataFrame geom)) (l : loc) (m : GeoDataFrame geom) :
  h !! l = Some m -> mask <> Some l ->
  (query_tracks engine start_date end_date mask d h).1 !! l = Some m
  /\ (query_adsb adsb_path start_date end_date mask d flag h).1 !! l = Some m.
Proof.
  intros Hl Hne. split.
  - rewrite (query_tracks_heap _ _ _ _ _ h l m Hl). now rewrite decide_False.
  - destruct (query_adsb_heap adsb_path start_date end_date mask d flag h l m Hl)
      as [H | [Heq _]]; [exact H | contradiction].
Qed.

Lemma queries_touch_only_mask_witness :
  (@query_tracks demo demo_engine "2019-06-01" "2019-06-02" (Some 1%positive)
     (Some 100) demo_heap).1 !! 2%positive = Some demo_albers_mask
  /\ (@query_adsb demo "/adsb" "2019-06-01" "2019-06-03" (Some 1%positive)
        (Some 100) (Some false) demo_heap).1 !! 2%positive = Some demo_albers_mask.
Proof.
  apply (@queries_touch_only_mask demo demo_engine "/adsb" "2019-06-01" "2019-06-03"
           (Some 1%positive) (Some 100) (Some false) demo_heap 2%positive
           demo_albers_mask).
  - vm_compute. reflexivity.
  - discriminate.
Defined.
